(** * OTP authentication and chat persistence: a model of the client code

    The development embeds the state logic of the application:
    the [useOTPAuth] hook (session restore, login, logout), the [OTPAuth]
    component (phone entry, code generation, verification), the
    [Dashboard] component (chatroom list) and the [ChatInterface]
    component (message log, delayed replies).

    Conventions of the embedding.
    - A JavaScript string is a [string]; every character stands for one
      code unit, so [String.length] is [.length] and [substring 0 n] is
      [.substring(0, n)].
    - [Date.now()] is an explicit argument [now : Z] of the handler that
      reads the clock; [new Date().toISOString()] is represented by the
      instant it renders.
    - [localStorage] and [sessionStorage] are finite maps from keys to
      values; component state is passed explicitly.
    - A [setTimeout] or [FileReader] callback is a value of type
      [Pending] that records what its closure captured; running it is
      the function [fire].
    - A JavaScript number is a double: the result of an arithmetic
      operation is the exact result rounded to the nearest double, ties
      to even ([Js.round_double]). *)

From Stdlib Require Import Ascii QArith Qround Lqa Qpower.
From stdpp Require Import gmap strings pretty list fin_maps.

(** ** String primitives *)

Module Js.

(** [\d] of the regular expressions in the source. *)
Definition is_digit (c : ascii) : bool :=
  match Ascii.is_nat c with Some _ => true | None => false end.

(** [s.replace(/\D/g, '')] *)
Fixpoint strip_non_digits (s : string) : string :=
  match s with
  | "" => ""
  | String c r =>
      if is_digit c then String c (strip_non_digits r) else strip_non_digits r
  end.

Fixpoint all_digits (s : string) : bool :=
  match s with
  | "" => true
  | String c r => is_digit c && all_digits r
  end.

Fixpoint trimStart (s : string) : string :=
  match s with
  | "" => ""
  | String c r => if Ascii.is_space c then trimStart r else s
  end.

(** [s.trim()]; the white space is that of the ASCII range: tab, line
    feed, vertical tab, form feed, carriage return and space. *)
Definition trim (s : string) : string :=
  String.rev (trimStart (String.rev (trimStart s))).

(** Truthiness of a string: only [''] is falsy. *)
Definition truthy (s : string) : bool :=
  match s with "" => false | _ => true end.

(** [s.startsWith(p)] *)
Definition startsWith (p s : string) : bool := String.prefix p s.

(** [s.substring(0, n)] and [s.slice(0, n)] for [n >= 0]. *)
Definition substring0 (n : nat) (s : string) : string := String.substring 0 n s.

(** [n.toString()] for an integer, also the rendering of a number in a
    template literal. *)
Definition toString (n : Z) : string := pretty n.

(** [s.toLowerCase()] on the letters [A]-[Z]; the other characters of
    the ASCII range have no lower case form and stay. *)
Definition toLowerCase_char (c : ascii) : ascii :=
  let n := nat_of_ascii c in
  if (65 <=? n)%nat && (n <=? 90)%nat then ascii_of_nat (n + 32) else c.

Fixpoint toLowerCase (s : string) : string :=
  match s with
  | "" => ""
  | String c r => String (toLowerCase_char c) (toLowerCase r)
  end.

(** [s.includes(q)]: [q] occurs in [s] at some position. *)
Fixpoint includes (q s : string) : bool :=
  String.prefix q s ||
  match s with
  | "" => false
  | String _ r => includes q r
  end.

Fixpoint repeat_char (n : nat) (c : ascii) : string :=
  match n with
  | O => ""
  | S k => String c (repeat_char k c)
  end.

(** [s.padStart(n, c)] for a one-character pad. *)
Definition padStart (n : nat) (c : ascii) (s : string) : string :=
  repeat_char (n - String.length s) c +:+ s.

(** *** Numbers

    A finite double is a rational [m * 2^e] with [|m| < 2^53] and
    [-1074 <= e].  [round_double x] is the double nearest to the
    rational [x], the even mantissa on a tie: the mantissa of a result
    in the binade [2^k <= |x| < 2^(k+1)] is counted in units of
    [2^(k-52)], and in units of [2^(-1074)] below the normal range.  The
    numbers of the application stay far below [2^1024], so no result
    overflows. *)
Definition pow2 (e : Z) : Q := Qpower 2 e.

(** The binade of a positive rational: [2^(ilog2 x) <= x < 2^(ilog2 x + 1)]. *)
Definition ilog2 (x : Q) : Z :=
  let L := (Z.log2 (Qnum x) - Z.log2 (Zpos (Qden x)))%Z in
  if Qle_bool (pow2 L) x then L else (L - 1)%Z.

(** The integer nearest to [q], the even one on a tie. *)
Definition round_half_even (q : Q) : Z :=
  let f := Qfloor q in
  match (q - inject_Z f ?= 1 # 2)%Q with
  | Lt => f
  | Gt => (f + 1)%Z
  | Eq => if Z.even f then f else (f + 1)%Z
  end.

Definition round_pos (x : Q) : Q :=
  let e := Z.max (ilog2 x - 52) (-1074) in
  (inject_Z (round_half_even (x / pow2 e)) * pow2 e)%Q.

Definition round_double (x : Q) : Q :=
  match Qnum x with
  | Z0 => 0%Q
  | Zpos _ => round_pos x
  | Zneg _ => (- round_pos (- x))%Q
  end.

(** The rationals that rounding leaves as they are: the doubles, as far
    as the range without overflow goes. *)
Definition is_double (x : Q) : Prop := (round_double x == x)%Q.

(** [x * y] and [x + y] on numbers. *)
Definition mul (x y : Q) : Q := round_double (x * y).
Definition add (x y : Q) : Q := round_double (x + y).

End Js.

(** ** The records of [types] *)

(** The argument type of [login] and of [onAuthenticated]:
    [{ id: string; phone: string; countryCode: string }]. *)
Record Identity := mkIdentity {
  i_id : string;
  i_phone : string;
  i_countryCode : string
}.

Record User := mkUser {
  u_id : string;
  u_phone : string;
  u_countryCode : string;
  u_createdAt : Z
}.

Record Chatroom := mkChatroom {
  c_id : string;
  c_name : string;
  c_lastMessage : option string;
  c_lastMessageTime : option Z;
  c_userId : string;
  c_createdAt : Z
}.

Record Message := mkMessage {
  m_id : string;
  m_content : string;
  m_isUser : bool;
  m_timestamp : Z;
  m_chatroomId : string;
  m_imageUrl : option string
}.

Record AuthState := mkAuthState {
  user : option User;
  a_isLoading : bool;
  isAuthenticated : bool
}.

Inductive Step := phone_step | otp_step | verified_step.

Record OTPState := mkOTPState {
  step : Step;
  phone : string;
  countryCode : string;
  otp : string;
  isLoading : bool;
  error : option string;
  timeLeft : Z;
  canResend : bool
}.

#[global] Instance Step_eq_dec : EqDecision Step.
Proof. solve_decision. Defined.

(** ** Storage

    A value kept in [localStorage] is a text.  The texts the application
    writes are [JSON.stringify] of an identity, of a chatroom array or of
    a message array; such a text is represented by the value it parses
    back to.  [Text s] is any other text: [Text ""] is the empty (falsy)
    string and [Text s] for a non-empty [s] is a text [JSON.parse]
    rejects.  The reader of the session key is modelled for every value.
    The readers of the chatroom and message keys are modelled for the
    values their key family is written with; for a value of another
    shape their result is [None], as for a text that does not parse,
    since the state would hold a value that is no list of chatrooms or
    messages; no writer in the repository produces such a pair. *)
Inductive Stored :=
  | JIdentity (u : Identity)
  | JChatrooms (rooms : list Chatroom)
  | JMessages (msgs : list Message)
  | Text (s : string).

Abbreviation LocalStorage := (gmap string Stored).
Abbreviation SessionStorage := (gmap string string).

(** [`chatrooms_${userId}`] and [`messages_${chatroomId}`] *)
Definition chatrooms_key (userId : string) : string := "chatrooms_" +:+ userId.
Definition messages_key (chatroomId : string) : string := "messages_" +:+ chatroomId.

(** [{ ...user, createdAt: new Date().toISOString() }] *)
Definition withTimestamp (u : Identity) (now : Z) : User :=
  {| u_id := i_id u; u_phone := i_phone u; u_countryCode := i_countryCode u;
     u_createdAt := now |}.

(** [{ ...user, createdAt: new Date().toISOString() }] for a parsed
    value that is not an identity, an array: the object has no [id],
    [phone] or [countryCode].  The application reads [user.id] in the
    template literals of the storage keys, where the missing field
    renders as the text [undefined], and copies it to [userId], which
    nothing reads; the fields hold that text. *)
Definition withoutIdentity (now : Z) : User :=
  {| u_id := "undefined"; u_phone := "undefined";
     u_countryCode := "undefined"; u_createdAt := now |}.

Definition signedOut : AuthState :=
  {| user := None; a_isLoading := false; isAuthenticated := false |}.

(** ** The hook [useOTPAuth] *)

Module useOTPAuth.

(** [useState<AuthState>({...})] *)
Definition initial : AuthState :=
  {| user := None; a_isLoading := true; isAuthenticated := false |}.

(** The mount effect.  The [if] branch is taken for every text that is
    not empty and parses: for an identity, and also for an array, whose
    spread brings no [id]; the [else] branch for no text or the empty
    one; the [catch] branch for a text that does not parse. *)
Definition checkAuthState (ls : LocalStorage) (now : Z) : AuthState :=
  match ls !! "otpUser" with
  | Some (JIdentity u) =>
      {| user := Some (withTimestamp u now);
         a_isLoading := false; isAuthenticated := true |}
  | Some (JChatrooms _) | Some (JMessages _) =>
      {| user := Some (withoutIdentity now);
         a_isLoading := false; isAuthenticated := true |}
  | None | Some (Text "") => signedOut
  | Some (Text _) => signedOut
  end.

Definition login (u : Identity) (now : Z) (ls : LocalStorage)
  : LocalStorage * AuthState :=
  let userWithTimestamp := withTimestamp u now in
  (<["otpUser" := JIdentity u]> ls,
   {| user := Some userWithTimestamp;
      a_isLoading := false; isAuthenticated := true |}).

(** The key test of the [forEach] in [logout]. *)
Definition wiped (key : string) : bool :=
  Js.startsWith "chatrooms_" key || Js.startsWith "messages_" key.

(** [keys.forEach(key => { if (...) localStorage.removeItem(key) })] *)
Definition forEach_remove (keys : list string) (ls : LocalStorage) : LocalStorage :=
  foldl (fun acc key => if wiped key then delete key acc else acc) ls keys.

(** [logout] of the hook that clears the chat data.  The storages and
    the state are those left when [window.location.reload()] is
    reached. *)
Definition logout (ls : LocalStorage) (ss : SessionStorage)
  : LocalStorage * SessionStorage * AuthState :=
  let ls1 := delete "otpUser" ls in
  let ss1 := delete "otpPhone" (delete "otp" ss) in
  let keys := (map_to_list ls1).*1 in
  (forEach_remove keys ls1, ss1, signedOut).

(** [window.location.reload()]: the page starts again, the hook is
    mounted afresh and its effect runs on what storage holds. *)
Definition reload (ls : LocalStorage) (now : Z) : AuthState :=
  checkAuthState ls now.

End useOTPAuth.

(** The other copy of the hook in the repository.  Its [checkAuthState]
    and [login] are the same text; its [logout] stops after the three
    [removeItem] calls and does not reload. *)
Module useOTPAuth_short.

Definition initial : AuthState := useOTPAuth.initial.
Definition checkAuthState := useOTPAuth.checkAuthState.
Definition login := useOTPAuth.login.

Definition logout (ls : LocalStorage) (ss : SessionStorage)
  : LocalStorage * SessionStorage * AuthState :=
  (delete "otpUser" ls, delete "otpPhone" (delete "otp" ss), signedOut).

End useOTPAuth_short.

(** ** The component [OTPAuth] *)

Module OTPAuth.

Definition initial : OTPState :=
  {| step := phone_step; phone := ""; countryCode := "+1"; otp := "";
     isLoading := false; error := None; timeLeft := 0; canResend := true |}.

(** [onChange] of the phone input. *)
Definition onPhoneChange (value : string) (prev : OTPState) : OTPState :=
  {| step := step prev; phone := Js.strip_non_digits value;
     countryCode := countryCode prev; otp := otp prev;
     isLoading := isLoading prev; error := None;
     timeLeft := timeLeft prev; canResend := canResend prev |}.

(** [onChange] of the code input. *)
Definition onOtpChange (value : string) (prev : OTPState) : OTPState :=
  {| step := step prev; phone := phone prev;
     countryCode := countryCode prev;
     otp := Js.substring0 6 (Js.strip_non_digits value);
     isLoading := isLoading prev; error := None;
     timeLeft := timeLeft prev; canResend := canResend prev |}.

(** [onValueChange] of the country select. *)
Definition onCountryChange (value : string) (prev : OTPState) : OTPState :=
  {| step := step prev; phone := phone prev; countryCode := value;
     otp := otp prev; isLoading := isLoading prev; error := error prev;
     timeLeft := timeLeft prev; canResend := canResend prev |}.

(** One firing of the resend interval; the effect installs it only
    while [timeLeft > 0]. *)
Definition tick (prev : OTPState) : OTPState :=
  {| step := step prev; phone := phone prev;
     countryCode := countryCode prev; otp := otp prev;
     isLoading := isLoading prev; error := error prev;
     timeLeft := timeLeft prev - 1;
     canResend := bool_decide (timeLeft prev ≤ 1)%Z |}.

Definition set_error (msg : string) (prev : OTPState) : OTPState :=
  {| step := step prev; phone := phone prev;
     countryCode := countryCode prev; otp := otp prev;
     isLoading := isLoading prev; error := Some msg;
     timeLeft := timeLeft prev; canResend := canResend prev |}.

(** [{ ...prev, isLoading: true, error: null }] *)
Definition set_loading (prev : OTPState) : OTPState :=
  {| step := step prev; phone := phone prev;
     countryCode := countryCode prev; otp := otp prev;
     isLoading := true; error := None;
     timeLeft := timeLeft prev; canResend := canResend prev |}.

(** What the timeout callback of [sendOTP] reads from the [otpState]
    of the render that called [sendOTP]. *)
Record SendClosure := mkSendClosure {
  s_countryCode : string;
  s_phone : string
}.

(** The synchronous part of [sendOTP]: the guard, then the timeout is
    set.  [None] is the early [return]. *)
Definition sendOTP (st : OTPState) : OTPState * option SendClosure :=
  if negb (Js.truthy (Js.trim (phone st)))
  then (set_error "Please enter a valid phone number" st, None)
  else (set_loading st,
        Some {| s_countryCode := countryCode st; s_phone := phone st |}).

(** [Math.floor(100000 + Math.random() * 900000).toString()], with the
    value of [Math.random()] as the double [r]: the product and the sum
    are each rounded to a double, [Math.floor] is exact. *)
Definition generatedNumber (r : Q) : Z :=
  Qfloor (Js.add 100000 (Js.mul r 900000)).
Definition generateOTP (r : Q) : string := Js.toString (generatedNumber r).

(** The timeout callback of [sendOTP]. *)
Definition sendOTP_timeout (c : SendClosure) (r : Q)
    (ss : SessionStorage) (prev : OTPState) : SessionStorage * OTPState :=
  let generatedOTP := generateOTP r in
  (<["otpPhone" := s_countryCode c +:+ s_phone c]> (<["otp" := generatedOTP]> ss),
   {| step := otp_step; phone := phone prev;
      countryCode := countryCode prev; otp := otp prev;
      isLoading := false; error := error prev;
      timeLeft := 60; canResend := false |}).

Record VerifyClosure := mkVerifyClosure {
  v_otp : string;
  v_phone : string;
  v_countryCode : string
}.

(** The synchronous part of [verifyOTP]. *)
Definition verifyOTP (st : OTPState) : OTPState * option VerifyClosure :=
  if negb (Js.truthy (Js.trim (otp st))) || negb (String.length (otp st) =? 6)%nat
  then (set_error "Please enter a valid 6-digit OTP" st, None)
  else (set_loading st,
        Some {| v_otp := otp st; v_phone := phone st;
                v_countryCode := countryCode st |}).

(** The timeout callback of [verifyOTP].  The last component is the
    argument of the [onAuthenticated] call it schedules, if any. *)
Definition verifyOTP_timeout (c : VerifyClosure) (now : Z)
    (ss : SessionStorage) (ls : LocalStorage) (prev : OTPState)
  : SessionStorage * LocalStorage * OTPState * option Identity :=
  let storedOTP := ss !! "otp" in
  if decide (Some (v_otp c) = storedOTP) then
    let user := {| i_id := "user_" +:+ Js.toString now;
                   i_phone := v_phone c;
                   i_countryCode := v_countryCode c |} in
    (delete "otpPhone" (delete "otp" ss),
     <["otpUser" := JIdentity user]> ls,
     {| step := verified_step; phone := phone prev;
        countryCode := countryCode prev; otp := otp prev;
        isLoading := false; error := error prev;
        timeLeft := timeLeft prev; canResend := canResend prev |},
     Some user)
  else
    (ss, ls,
     {| step := step prev; phone := phone prev;
        countryCode := countryCode prev; otp := otp prev;
        isLoading := false; error := Some "Invalid OTP. Please try again.";
        timeLeft := timeLeft prev; canResend := canResend prev |},
     None).

(** [resendOTP]: the update [{ ...prev, otp: '', error: null }] is
    queued first, the updates of [sendOTP] are applied after it, and
    the guard of [sendOTP] reads [phone], which the first update
    keeps. *)
Definition resendOTP (st : OTPState) : OTPState * option SendClosure :=
  if canResend st then
    sendOTP {| step := step st; phone := phone st;
               countryCode := countryCode st; otp := "";
               isLoading := isLoading st; error := None;
               timeLeft := timeLeft st; canResend := canResend st |}
  else (st, None).

Definition goBack (prev : OTPState) : OTPState :=
  {| step := phone_step; phone := phone prev;
     countryCode := countryCode prev; otp := "";
     isLoading := isLoading prev; error := None;
     timeLeft := 0; canResend := true |}.

(** The resend timer effect: an interval is installed only while
    [timeLeft > 0], and it is installed again after every change of
    [timeLeft]; one second of it is one [tick] or nothing. *)
Definition interval (prev : OTPState) : OTPState :=
  if decide (0 < timeLeft prev)%Z then tick prev else prev.

(** [n] seconds of the resend timer effect. *)
Fixpoint elapse (n : nat) (st : OTPState) : OTPState :=
  match n with
  | O => st
  | S k => elapse k (interval st)
  end.

(** [formatTime] *)
Definition formatTime (seconds : Z) : string :=
  let mins := (seconds / 60)%Z in
  let secs := Z.rem seconds 60 in
  Js.toString mins +:+ ":" +:+ Js.padStart 2 "0" (Js.toString secs).

(** The [disabled] attribute of the two submit buttons and the two
    conditional blocks of the [otp] step. *)
Definition sendDisabled (st : OTPState) : bool :=
  isLoading st || negb (Js.truthy (Js.trim (phone st))).

Definition verifyDisabled (st : OTPState) : bool :=
  isLoading st || negb (String.length (otp st) =? 6)%nat.

Definition showsCountdown (st : OTPState) : bool := bool_decide (0 < timeLeft st)%Z.

Definition showsResend (st : OTPState) : bool := canResend st.

End OTPAuth.

(** ** The components [Dashboard] and [ChatInterface] *)

Record DashboardState := mkDashboard {
  d_user : option User;
  chatrooms : list Chatroom;
  searchQuery : string;
  selectedChatroom : option Chatroom;
  isCreating : bool;
  newChatroomName : string
}.

(** The state of a mounted [ChatInterface].  [mountId] tells the mounted
    instance from earlier ones: a state setter called by a callback of
    an instance that is no longer mounted has no effect. *)
Record ChatState := mkChat {
  mountId : nat;
  ch_user : option User;
  messages : list Message;
  inputValue : string;
  isTyping : bool
}.

Record World := mkWorld {
  localStorage : LocalStorage;
  dashboard : DashboardState;
  chat : option ChatState;
  mounts : nat
}.

(** What the handlers created by one render of [Dashboard] read. *)
Record DashClosure := mkDashClosure {
  dc_user : option User;
  dc_chatrooms : list Chatroom;
  dc_selectedChatroom : option Chatroom;
  dc_newChatroomName : string
}.

(** What the handlers created by one render of [ChatInterface] read:
    the props ([chatroom], and [onUpdateChatroom], which is a handler of
    the [Dashboard] render that produced it) and the state. *)
Record ChatClosure := mkChatClosure {
  cc_chatroom : Chatroom;
  cc_onUpdateChatroom : DashClosure;
  cc_mountId : nat;
  cc_user : option User;
  cc_messages : list Message;
  cc_inputValue : string
}.

Record File := mkFile {
  f_name : string;
  f_dataUrl : string
}.

Inductive Pending :=
  | AiReply (cc : ChatClosure)
  | ReaderLoad (cc : ChatClosure) (file : File)
  | ImageAiReply (cc : ChatClosure) (newMessages : list Message).

Definition set_localStorage (ls : LocalStorage) (w : World) : World :=
  {| localStorage := ls; dashboard := dashboard w; chat := chat w;
     mounts := mounts w |}.

Definition set_dashboard (d : DashboardState) (w : World) : World :=
  {| localStorage := localStorage w; dashboard := d; chat := chat w;
     mounts := mounts w |}.

Module Dashboard.

Definition initial (u : option User) : DashboardState :=
  {| d_user := u; chatrooms := []; searchQuery := "";
     selectedChatroom := None; isCreating := false; newChatroomName := "" |}.

Definition render (w : World) : DashClosure :=
  {| dc_user := d_user (dashboard w);
     dc_chatrooms := chatrooms (dashboard w);
     dc_selectedChatroom := selectedChatroom (dashboard w);
     dc_newChatroomName := newChatroomName (dashboard w) |}.

Definition setChatrooms (rooms : list Chatroom) (d : DashboardState) : DashboardState :=
  {| d_user := d_user d; chatrooms := rooms; searchQuery := searchQuery d;
     selectedChatroom := selectedChatroom d; isCreating := isCreating d;
     newChatroomName := newChatroomName d |}.

(** The effect that loads the chatrooms when [user] changes.  [None]
    is [JSON.parse] throwing. *)
Definition loadChatrooms (w : World) : option World :=
  match d_user (dashboard w) with
  | Some u =>
      match localStorage w !! chatrooms_key (u_id u) with
      | Some (JChatrooms rooms) =>
          Some (set_dashboard (setChatrooms rooms (dashboard w)) w)
      | None | Some (Text "") => Some w
      | Some _ => None
      end
  | None => Some w
  end.

(** [setSelectedChatroom]: the chat view is mounted when a chatroom is
    selected from the list and unmounted when the selection is
    cleared. *)
Definition setSelectedChatroom (sel : option Chatroom) (w : World) : World :=
  let d := dashboard w in
  let d' := {| d_user := d_user d; chatrooms := chatrooms d;
               searchQuery := searchQuery d; selectedChatroom := sel;
               isCreating := isCreating d;
               newChatroomName := newChatroomName d |} in
  match sel, chat w with
  | Some _, Some c =>
      {| localStorage := localStorage w; dashboard := d'; chat := Some c;
         mounts := mounts w |}
  | Some _, None =>
      {| localStorage := localStorage w; dashboard := d';
         chat := Some {| mountId := mounts w; ch_user := None;
                         messages := []; inputValue := ""; isTyping := false |};
         mounts := S (mounts w) |}
  | None, _ =>
      {| localStorage := localStorage w; dashboard := d'; chat := None;
         mounts := mounts w |}
  end.

Definition saveChatrooms (dc : DashClosure) (rooms : list Chatroom) (w : World) : World :=
  match dc_user dc with
  | Some u =>
      set_dashboard (setChatrooms rooms (dashboard w))
        (set_localStorage
           (<[chatrooms_key (u_id u) := JChatrooms rooms]> (localStorage w)) w)
  | None => w
  end.

(** [setNewChatroomName('')] and [setIsCreating(false)] *)
Definition closeCreateForm (w : World) : World :=
  let d := dashboard w in
  set_dashboard
    {| d_user := d_user d; chatrooms := chatrooms d;
       searchQuery := searchQuery d; selectedChatroom := selectedChatroom d;
       isCreating := false; newChatroomName := "" |} w.

Definition newRoom (name : string) (u : User) (now : Z) : Chatroom :=
  {| c_id := "room_" +:+ Js.toString now;
     c_name := Js.trim name;
     c_lastMessage := None; c_lastMessageTime := None;
     c_userId := u_id u;
     c_createdAt := now |}.

Definition createChatroom (dc : DashClosure) (now : Z) (w : World) : World :=
  match Js.truthy (Js.trim (dc_newChatroomName dc)), dc_user dc with
  | true, Some u =>
      let room := newRoom (dc_newChatroomName dc) u now in
      let updatedRooms := room :: dc_chatrooms dc in
      setSelectedChatroom (Some room)
        (closeCreateForm (saveChatrooms dc updatedRooms w))
  | _, _ => w
  end.

Definition deleteChatroom (dc : DashClosure) (roomId : string) (w : World) : World :=
  let updatedRooms := filter (fun r => c_id r ≠ roomId) (dc_chatrooms dc) in
  let w1 := saveChatrooms dc updatedRooms w in
  let w2 := match dc_selectedChatroom dc with
            | Some sel =>
                if decide (c_id sel = roomId)
                then setSelectedChatroom None w1 else w1
            | None => w1
            end in
  match dc_user dc with
  | Some _ => set_localStorage (delete (messages_key roomId) (localStorage w2)) w2
  | None => w2
  end.

(** The [onUpdateChatroom] prop passed to [ChatInterface]. *)
Definition onUpdateChatroom (dc : DashClosure) (updatedRoom : Chatroom) (w : World) : World :=
  let updatedRooms :=
    (fun r => if decide (c_id r = c_id updatedRoom) then updatedRoom else r)
      <$> dc_chatrooms dc in
  saveChatrooms dc updatedRooms w.

(** The [onBack] prop passed to [ChatInterface]. *)
Definition onBack (w : World) : World := setSelectedChatroom None w.

(** [filteredChatrooms] *)
Definition filteredChatrooms (rooms : list Chatroom) (query : string) : list Chatroom :=
  filter (fun room =>
            Js.includes (Js.toLowerCase query) (Js.toLowerCase (c_name room)) = true)
         rooms.

End Dashboard.

Module ChatInterface.

Definition render (w : World) : option ChatClosure :=
  match selectedChatroom (dashboard w), chat w with
  | Some room, Some c =>
      Some {| cc_chatroom := room;
              cc_onUpdateChatroom := Dashboard.render w;
              cc_mountId := mountId c; cc_user := ch_user c;
              cc_messages := messages c; cc_inputValue := inputValue c |}
  | _, _ => None
  end.

(** A state update of the instance [mount]. *)
Definition update (mount : nat) (f : ChatState -> ChatState) (w : World) : World :=
  match chat w with
  | Some c =>
      if decide (mountId c = mount)
      then {| localStorage := localStorage w; dashboard := dashboard w;
              chat := Some (f c); mounts := mounts w |}
      else w
  | None => w
  end.

Definition setMessages (mount : nat) (f : list Message -> list Message) : World -> World :=
  update mount (fun c =>
    {| mountId := mountId c; ch_user := ch_user c; messages := f (messages c);
       inputValue := inputValue c; isTyping := isTyping c |}).

Definition setInputValue (mount : nat) (v : string) : World -> World :=
  update mount (fun c =>
    {| mountId := mountId c; ch_user := ch_user c; messages := messages c;
       inputValue := v; isTyping := isTyping c |}).

Definition setIsTyping (mount : nat) (b : bool) : World -> World :=
  update mount (fun c =>
    {| mountId := mountId c; ch_user := ch_user c; messages := messages c;
       inputValue := inputValue c; isTyping := b |}).

(** The mount effects: the hook of the instance reads the session and
    the saved messages are loaded.  [None] is [JSON.parse] throwing in
    the second effect. *)
Definition mountEffects (cc : ChatClosure) (now : Z) (w : World) : option World :=
  let w1 := update (cc_mountId cc) (fun c =>
    {| mountId := mountId c;
       ch_user := user (useOTPAuth.checkAuthState (localStorage w) now);
       messages := messages c; inputValue := inputValue c;
       isTyping := isTyping c |}) w in
  match localStorage w !! messages_key (c_id (cc_chatroom cc)) with
  | Some (JMessages saved) => Some (setMessages (cc_mountId cc) (fun _ => saved) w1)
  | None | Some (Text "") => Some w1
  | Some _ => None
  end.

(** [{ ...chatroom, lastMessage: ..., lastMessageTime: ... }] *)
Definition withPreview (room : Chatroom) (lastMessage : Message) : Chatroom :=
  {| c_id := c_id room; c_name := c_name room;
     c_lastMessage := Some (Js.substring0 100 (m_content lastMessage));
     c_lastMessageTime := Some (m_timestamp lastMessage);
     c_userId := c_userId room; c_createdAt := c_createdAt room |}.

Definition saveMessages (cc : ChatClosure) (newMessages : list Message) (w : World) : World :=
  let w1 := set_localStorage
              (<[messages_key (c_id (cc_chatroom cc)) := JMessages newMessages]>
                 (localStorage w)) w in
  let w2 := setMessages (cc_mountId cc) (fun _ => newMessages) w1 in
  match last newMessages with
  | Some lastMessage =>
      Dashboard.onUpdateChatroom (cc_onUpdateChatroom cc)
        (withPreview (cc_chatroom cc) lastMessage) w2
  | None => w2
  end.

Definition userMessage (cc : ChatClosure) (now : Z) : Message :=
  {| m_id := "msg_" +:+ Js.toString now;
     m_content := Js.trim (cc_inputValue cc);
     m_isUser := true; m_timestamp := now;
     m_chatroomId := c_id (cc_chatroom cc); m_imageUrl := None |}.

Definition aiMessage (cc : ChatClosure) (now : Z) : Message :=
  {| m_id := "msg_" +:+ Js.toString now +:+ "_ai";
     m_content := "This is a simulated AI response.";
     m_isUser := false; m_timestamp := now;
     m_chatroomId := c_id (cc_chatroom cc); m_imageUrl := None |}.

Definition imageMessage (cc : ChatClosure) (file : File) (now : Z) : Message :=
  {| m_id := "msg_" +:+ Js.toString now +:+ "_img";
     m_content := "Shared an image: " +:+ f_name file;
     m_isUser := true; m_timestamp := now;
     m_chatroomId := c_id (cc_chatroom cc);
     m_imageUrl := Some (f_dataUrl file) |}.

Definition aiResponse (cc : ChatClosure) (now : Z) : Message :=
  {| m_id := "msg_" +:+ Js.toString now +:+ "_ai_img";
     m_content := "I can see you've shared an image! While I can't analyze images in this demo, I'd be happy to help you with any questions about it.";
     m_isUser := false; m_timestamp := now;
     m_chatroomId := c_id (cc_chatroom cc); m_imageUrl := None |}.

(** [sendMessage].  The [catch] block of the source is not reached:
    [setTimeout] does not throw. *)
Definition sendMessage (cc : ChatClosure) (now : Z) (w : World) : World * list Pending :=
  match Js.truthy (Js.trim (cc_inputValue cc)), cc_user cc with
  | true, Some _ =>
      let newMessages := cc_messages cc ++ [userMessage cc now] in
      let w1 := saveMessages cc newMessages w in
      let w2 := setInputValue (cc_mountId cc) "" w1 in
      (setIsTyping (cc_mountId cc) true w2, [AiReply cc])
  | _, _ => (w, [])
  end.

(** [handleImageUpload]: the reader is started when a file is present
    and a user is signed in. *)
Definition handleImageUpload (cc : ChatClosure) (file : option File) : list Pending :=
  match file, cc_user cc with
  | Some f, Some _ => [ReaderLoad cc f]
  | _, _ => []
  end.

(** Running a callback at clock reading [now]. *)
Definition fire (p : Pending) (now : Z) (w : World) : World * list Pending :=
  match p with
  | AiReply cc =>
      let w1 := setMessages (cc_mountId cc) (fun prev => prev ++ [aiMessage cc now]) w in
      (setIsTyping (cc_mountId cc) false w1, [])
  | ReaderLoad cc file =>
      let newMessages := cc_messages cc ++ [imageMessage cc file now] in
      let w1 := saveMessages cc newMessages w in
      (setIsTyping (cc_mountId cc) true w1, [ImageAiReply cc newMessages])
  | ImageAiReply cc newMessages =>
      let finalMessages := newMessages ++ [aiResponse cc now] in
      let w1 := saveMessages cc finalMessages w in
      (setIsTyping (cc_mountId cc) false w1, [])
  end.

End ChatInterface.

(** * Vocabulary of the statements *)

Definition has_user (st : AuthState) : bool :=
  match user st with Some _ => true | None => false end.

(** [isAuthenticated == (user != null)] *)
Definition session_invariant (st : AuthState) : Prop :=
  isAuthenticated st = has_user st.

(** The number a string of decimal digits denotes. *)
Definition digit_value (c : ascii) : Z := Z.of_nat (nat_of_ascii c) - 48.

Fixpoint decimal_go (acc : Z) (s : string) : Z :=
  match s with
  | "" => acc
  | String c r => decimal_go (acc * 10 + digit_value c) r
  end.

Definition decimal_value (s : string) : Z := decimal_go 0 s.

(** The record of the signed-in user in [localStorage]. *)
Definition session_record (w : World) : option Stored := localStorage w !! "otpUser".

(** The chatroom id made at clock reading [t]. *)
Definition room_id (t : Z) : string := "room_" +:+ Js.toString t.

(** The handlers of [Dashboard] and [ChatInterface] and the callbacks
    they set, each with the closure it runs in. *)
Inductive Event :=
  | CreateChatroom (dc : DashClosure) (now : Z)
  | DeleteChatroom (dc : DashClosure) (roomId : string)
  | SelectChatroom (room : Chatroom)
  | LeaveChat
  | SendMessage (cc : ChatClosure) (now : Z)
  | Fire (p : Pending) (now : Z).

Definition handle (w : World) (e : Event) : World :=
  match e with
  | CreateChatroom dc now => Dashboard.createChatroom dc now w
  | DeleteChatroom dc roomId => Dashboard.deleteChatroom dc roomId w
  | SelectChatroom room => Dashboard.setSelectedChatroom (Some room) w
  | LeaveChat => Dashboard.onBack w
  | SendMessage cc now => (ChatInterface.sendMessage cc now w).1
  | Fire p now => (ChatInterface.fire p now w).1
  end.

Definition run (es : list Event) (w : World) : World := foldl handle w es.

(** The mount effects of the chat view that is on screen, if any. *)
Definition settle (now : Z) (w : World) : World :=
  match ChatInterface.render w with
  | Some cc => default w (ChatInterface.mountEffects cc now w)
  | None => w
  end.

Ltac div_lia := zify; Z.to_euclidean_division_equations; lia.

(** [x] is [10 * q + d] with the decimal digit [d]. *)
Ltac split_digit x q d :=
  pose proof (N.div_mod' x 10);
  pose proof (N.mod_lt x 10 ltac:(done));
  set (q := (x `div` 10)%N) in *; set (d := (x `mod` 10)%N) in *;
  clearbody q d.

(** ** Sample data *)

Definition alice : Identity :=
  {| i_id := "user_1"; i_phone := "5551234"; i_countryCode := "+1" |}.

Definition alice_user : User :=
  {| u_id := "user_1"; u_phone := "5551234"; u_countryCode := "+1";
     u_createdAt := 1 |}.

Definition trip : Chatroom :=
  {| c_id := "room_2"; c_name := "Trip Planning"; c_lastMessage := None;
     c_lastMessageTime := None; c_userId := "user_1"; c_createdAt := 2 |}.

Definition trip_with (m : Message) : Chatroom := ChatInterface.withPreview trip m.

Definition hello : Message :=
  {| m_id := "msg_3"; m_content := "Hello"; m_isUser := true;
     m_timestamp := 3; m_chatroomId := "room_2"; m_imageUrl := None |}.

Definition reply : Message :=
  {| m_id := "msg_1003_ai"; m_content := "This is a simulated AI response.";
     m_isUser := false; m_timestamp := 1003; m_chatroomId := "room_2";
     m_imageUrl := None |}.

Definition photo : File :=
  {| f_name := "cat.png"; f_dataUrl := "data:image/png;base64,AAAA" |}.

(** A storage that has been used: a session, a chatroom, a message. *)
Definition used_storage : LocalStorage :=
  <["messages_room_2" := JMessages [hello]]>
    (<["chatrooms_user_1" := JChatrooms [trip]]>
       (<["otpUser" := JIdentity alice]> ∅)).

(** The form at the [otp] step with [code] typed in, and a stored
    challenge. *)
Definition at_otp (code : string) : OTPState :=
  {| step := otp_step; phone := "5551234"; countryCode := "+1"; otp := code;
     isLoading := false; error := None; timeLeft := 60; canResend := false |}.

Definition challenge : SessionStorage := {["otp" := "123456"]}.

(** *** A chatroom is created, opened and written to *)

Definition empty_world : World :=
  {| localStorage := <["otpUser" := JIdentity alice]> ∅;
     dashboard := Dashboard.initial (Some alice_user); chat := None; mounts := 0 |}.

Definition w_named : World :=
  set_dashboard
    {| d_user := Some alice_user; chatrooms := []; searchQuery := "";
       selectedChatroom := None; isCreating := true;
       newChatroomName := "Trip Planning" |} empty_world.

Definition w_created : World :=
  Dashboard.createChatroom (Dashboard.render w_named) 2 w_named.

Definition w_opened : World := settle 1 w_created.

Definition w_typed : World := ChatInterface.setInputValue 0 "Hello" w_opened.

(** The closures of the renders of [w_opened] and [w_typed]. *)
Definition trip_dashboard : DashClosure :=
  {| dc_user := Some alice_user; dc_chatrooms := [trip];
     dc_selectedChatroom := Some trip; dc_newChatroomName := "" |}.

Definition opened_closure : ChatClosure :=
  {| cc_chatroom := trip; cc_onUpdateChatroom := trip_dashboard;
     cc_mountId := 0; cc_user := Some alice_user; cc_messages := [];
     cc_inputValue := "" |}.

Definition typed_closure : ChatClosure :=
  {| cc_chatroom := trip; cc_onUpdateChatroom := trip_dashboard;
     cc_mountId := 0; cc_user := Some alice_user; cc_messages := [];
     cc_inputValue := "Hello" |}.

(** After the image has been read: the image message is stored and the
    reply timeout is pending. *)
Definition w_image : World :=
  (ChatInterface.fire (ReaderLoad opened_closure photo) 3 w_opened).1.

(** The user leaves the chat view and deletes the chatroom from the
    list before the reply timeout runs. *)
Definition w_left : World := Dashboard.onBack w_image.

Definition w_deleted : World :=
  Dashboard.deleteChatroom (Dashboard.render w_left) "room_2" w_left.

(** ** The component [App] and the form as a whole *)

Inductive Screen := LoadingScreen | OTPAuthScreen | DashboardScreen.

(** What [App] returns for the state of its hook. *)
Definition App (st : AuthState) : Screen :=
  if a_isLoading st then LoadingScreen
  else if negb (isAuthenticated st) || negb (has_user st) then OTPAuthScreen
  else DashboardScreen.

(** The form of [OTPAuth] with the two storages it reads and writes. *)
Record Form := mkForm {
  f_state : OTPState;
  f_session : SessionStorage;
  f_local : LocalStorage
}.

(** What can happen to the form: the input handlers, the three buttons
    with the timeouts they set, the back button and the resend
    interval.  A timeout carries the closure it runs in. *)
Inductive FormEvent :=
  | PhoneInput (value : string)
  | OtpInput (value : string)
  | CountryPick (value : string)
  | SendClick
  | SendTimeout (sc : OTPAuth.SendClosure) (r : Q)
  | VerifyClick
  | VerifyTimeout (vc : OTPAuth.VerifyClosure) (now : Z)
  | ResendClick
  | BackClick
  | IntervalFires.

Definition form_handle (f : Form) (e : FormEvent) : Form :=
  let with_state st := {| f_state := st; f_session := f_session f;
                          f_local := f_local f |} in
  match e with
  | PhoneInput v => with_state (OTPAuth.onPhoneChange v (f_state f))
  | OtpInput v => with_state (OTPAuth.onOtpChange v (f_state f))
  | CountryPick v => with_state (OTPAuth.onCountryChange v (f_state f))
  | SendClick => with_state (OTPAuth.sendOTP (f_state f)).1
  | SendTimeout sc r =>
      let '(ss, st) := OTPAuth.sendOTP_timeout sc r (f_session f) (f_state f) in
      {| f_state := st; f_session := ss; f_local := f_local f |}
  | VerifyClick => with_state (OTPAuth.verifyOTP (f_state f)).1
  | VerifyTimeout vc now =>
      let '(ss, ls, st, _) :=
        OTPAuth.verifyOTP_timeout vc now (f_session f) (f_local f) (f_state f) in
      {| f_state := st; f_session := ss; f_local := ls |}
  | ResendClick => with_state (OTPAuth.resendOTP (f_state f)).1
  | BackClick => with_state (OTPAuth.goBack (f_state f))
  | IntervalFires => with_state (OTPAuth.tick (f_state f))
  end.

Definition form_run (es : list FormEvent) (f : Form) : Form := foldl form_handle f es.

(** The form as it is mounted. *)
Definition form_start (ss : SessionStorage) (ls : LocalStorage) : Form :=
  {| f_state := OTPAuth.initial; f_session := ss; f_local := ls |}.

(** A sequence of chatroom creations from the list view, one per clock
    reading, each followed by the return to the list. *)
Fixpoint create_all (u : User) (names : list (string * Z)) (w : World) : World :=
  match names with
  | [] => w
  | (name, now) :: rest =>
      let dc := {| dc_user := Some u; dc_chatrooms := chatrooms (dashboard w);
                   dc_selectedChatroom := selectedChatroom (dashboard w);
                   dc_newChatroomName := name |} in
      create_all u rest (Dashboard.onBack (Dashboard.createChatroom dc now w))
  end.

(** The create form open with a name of three spaces. *)
Definition w_blank : World :=
  set_dashboard
    {| d_user := Some alice_user; chatrooms := []; searchQuery := "";
       selectedChatroom := None; isCreating := true;
       newChatroomName := "   " |} empty_world.

(** *** A reply timeout that outlives its chat view

    Two chatrooms are in the list.  An image is shared in the second
    one, [Notes]; while its reply timeout is pending the user goes back
    to the list, opens [Trip Planning] and sends a message there; then
    the timeout runs. *)












(** ** Vocabulary of the further properties *)

(** The two digits of a number below 60. *)
Definition two_digits (x : Z) : string :=
  String (pretty_N_char (Z.to_N (x / 10)))
    (String (pretty_N_char (Z.to_N (x mod 10))) "").

(** The dashboard closure an event runs its [saveChatrooms] in. *)
Definition event_dash (e : Event) : option DashClosure :=
  match e with
  | CreateChatroom dc _ | DeleteChatroom dc _ => Some dc
  | SendMessage cc _ => Some (cc_onUpdateChatroom cc)
  | Fire (AiReply cc) _ | Fire (ReaderLoad cc _) _ | Fire (ImageAiReply cc _) _ =>
      Some (cc_onUpdateChatroom cc)
  | SelectChatroom _ | LeaveChat => None
  end.

(** Every closure of the event was made while [uid] was signed in, or
    while nobody was. *)
Definition event_of_user (uid : string) (e : Event) : Prop :=
  ∀ dc u, event_dash e = Some dc → dc_user dc = Some u → u_id u = uid.

(** The stored chatroom list of [uid] is the list of the state. *)
Definition list_in_sync (uid : string) (w : World) : Prop :=
  localStorage w !! chatrooms_key uid = Some (JChatrooms (chatrooms (dashboard w))).

(** * Properties *)

(** ** Strings *)

Lemma rev_app_rev_app (s1 s2 s3 : string) :
  String.rev_app (String.rev_app s1 s2) s3 = String.rev_app s2 (s1 +:+ s3).
Proof.
  revert s2 s3. induction s1 as [|c s1 IH]; intros s2 s3; simpl; [done|].
  by rewrite IH.
Qed.

Lemma rev_involutive (s : string) : String.rev (String.rev s) = s.
Proof.
  unfold String.rev. rewrite rev_app_rev_app. simpl.
  induction s as [|c s IH]; [done|].
  cbv [String.append]. fold String.append. by rewrite IH.
Qed.

Lemma all_digits_rev_app (s1 s2 : string) :
  Js.all_digits (String.rev_app s1 s2) = Js.all_digits s1 && Js.all_digits s2.
Proof.
  revert s2. induction s1 as [|c s1 IH]; intros s2; simpl; [done|].
  rewrite IH. simpl. by destruct (Js.is_digit c), (Js.all_digits s1).
Qed.

Lemma digit_not_space (c : ascii) : Js.is_digit c = true → Ascii.is_space c = false.
Proof.
  unfold Js.is_digit.
  destruct c as [[] [] [] [] [] [] [] []]; simpl; by intros.
Qed.

Lemma trimStart_digits (s : string) : Js.all_digits s = true → Js.trimStart s = s.
Proof.
  destruct s as [|c s]; simpl; [done|].
  intros [Hc _]%andb_true_iff. by rewrite (digit_not_space c Hc).
Qed.

(** [trim] leaves a string of digits as it is. *)
Lemma trim_digits (s : string) : Js.all_digits s = true → Js.trim s = s.
Proof.
  intros Hs. unfold Js.trim. rewrite (trimStart_digits s Hs).
  rewrite trimStart_digits; [apply rev_involutive|].
  unfold String.rev. rewrite all_digits_rev_app, Hs. done.
Qed.

Lemma strip_non_digits_all_digits (s : string) :
  Js.all_digits (Js.strip_non_digits s) = true.
Proof.
  induction s as [|c s IH]; simpl; [done|].
  destruct (Js.is_digit c) eqn:Hc; simpl; [by rewrite Hc|done].
Qed.

Lemma truthy_false (s : string) : Js.truthy s = false ↔ s = "".
Proof. by destruct s. Qed.

Lemma startsWith_app (p s : string) : Js.startsWith p (p +:+ s) = true.
Proof.
  unfold Js.startsWith. induction p as [|c p IH]; simpl.
  - by destruct s.
  - destruct (Ascii.ascii_dec c c); [apply IH|done].
Qed.

(** ** Storage keys *)

Lemma chatrooms_key_ne_otpUser (uid : string) : chatrooms_key uid ≠ "otpUser".
Proof. unfold chatrooms_key. cbv [String.append]. intros H. inversion H. Qed.

Lemma messages_key_ne_otpUser (rid : string) : messages_key rid ≠ "otpUser".
Proof. unfold messages_key. cbv [String.append]. intros H. inversion H. Qed.

Lemma chatrooms_key_ne_messages_key (uid rid : string) :
  chatrooms_key uid ≠ messages_key rid.
Proof. unfold chatrooms_key, messages_key. cbv [String.append]. intros H. inversion H. Qed.

Lemma wiped_chatrooms_key (uid : string) : useOTPAuth.wiped (chatrooms_key uid) = true.
Proof. unfold useOTPAuth.wiped, chatrooms_key. by rewrite startsWith_app. Qed.

Lemma wiped_messages_key (rid : string) : useOTPAuth.wiped (messages_key rid) = true.
Proof.
  unfold useOTPAuth.wiped, messages_key. rewrite (startsWith_app "messages_").
  apply orb_true_r.
Qed.

(** ** The session hook *)

Lemma forEach_remove_lookup (keys : list string) (ls : LocalStorage) (k : string) :
  useOTPAuth.forEach_remove keys ls !! k =
    if decide (k ∈ keys ∧ useOTPAuth.wiped k = true) then None else ls !! k.
Proof.
  unfold useOTPAuth.forEach_remove.
  revert ls. induction keys as [|key keys IH]; intros ls; cbn [foldl].
  - destruct (decide _) as [[H _]|_]; [|done]. by apply elem_of_nil in H.
  - rewrite IH. clear IH.
    destruct (decide (k ∈ keys ∧ _)) as [[Hin Hw]|Hn].
    + rewrite decide_True; [done|]. split; [by right|done].
    + destruct (decide (k = key)) as [->|Hne].
      * destruct (useOTPAuth.wiped key) eqn:Hkey.
        -- rewrite lookup_delete_eq, decide_True; [done|]. split; [by left|done].
        -- rewrite decide_False; [done|]. intros [_ ?]. congruence.
      * rewrite decide_False.
        -- destruct (useOTPAuth.wiped key); [by rewrite lookup_delete_ne|done].
        -- intros [[?|?]%elem_of_cons ?]; [done|]. by apply Hn.
Qed.

(** What the clearing [logout] leaves in [localStorage]: the keys that
    start with [chatrooms_] or [messages_] and the key [otpUser] are
    gone, every other key keeps its value. *)
Lemma logout_lookup (ls : LocalStorage) (ss : SessionStorage) (k : string) :
  (useOTPAuth.logout ls ss).1.1 !! k =
    if useOTPAuth.wiped k then None
    else if decide (k = "otpUser") then None else ls !! k.
Proof.
  unfold useOTPAuth.logout. simpl. rewrite forEach_remove_lookup.
  destruct (useOTPAuth.wiped k) eqn:Hk.
  - case_decide as H; [done|].
    destruct (delete "otpUser" ls !! k) as [v|] eqn:Hv; [|done].
    exfalso. apply H. split; [|done].
    apply list_elem_of_fmap. exists (k, v). split; [done|].
    by apply elem_of_map_to_list.
  - case_decide as H; [by destruct H|].
    case_decide as H2; [subst; by rewrite lookup_delete_eq|].
    by rewrite lookup_delete_ne.
Qed.

(** The session of the first run: nothing stored under [otpUser]. *)
Lemma checkAuthState_absent (ls : LocalStorage) (now : Z) :
  ls !! "otpUser" = None → useOTPAuth.checkAuthState ls now = signedOut.
Proof. intros H. unfold useOTPAuth.checkAuthState. by rewrite H. Qed.

Lemma checkAuthState_invariant (ls : LocalStorage) (now : Z) :
  session_invariant (useOTPAuth.checkAuthState ls now).
Proof.
  unfold useOTPAuth.checkAuthState, session_invariant, has_user.
  destruct (ls !! "otpUser") as [[u|rooms|msgs|[|c s]]|]; reflexivity.
Qed.

(** The clearing [logout] followed by the reload: storage holds no
    session key and no chatroom or message key, the restored session is
    signed out, and the chatroom list loaded for any user is empty. *)
Lemma logout_then_reload (ls : LocalStorage) (ss : SessionStorage) (now : Z) :
  let '(ls', ss', st) := useOTPAuth.logout ls ss in
  ls' !! "otpUser" = None
  ∧ (∀ k, useOTPAuth.wiped k = true → ls' !! k = None)
  ∧ (∀ uid, ls' !! chatrooms_key uid = None)
  ∧ (∀ rid, ls' !! messages_key rid = None)
  ∧ (∀ k, useOTPAuth.wiped k = false → k ≠ "otpUser" → ls' !! k = ls !! k)
  ∧ ss' !! "otp" = None ∧ ss' !! "otpPhone" = None
  ∧ st = signedOut
  ∧ useOTPAuth.reload ls' now = signedOut
  ∧ (∀ u w, localStorage w = ls' →
       dashboard w = Dashboard.initial (Some u) →
       Dashboard.loadChatrooms w = Some w).
Proof.
  pose proof (logout_lookup ls ss) as Hl.
  destruct (useOTPAuth.logout ls ss) as [[ls' ss'] st] eqn:E.
  simpl in Hl.
  assert (Hw : ∀ k, useOTPAuth.wiped k = true → ls' !! k = None).
  { intros k Hk. by rewrite Hl, Hk. }
  assert (Ho : ls' !! "otpUser" = None).
  { rewrite Hl. by destruct (useOTPAuth.wiped "otpUser"). }
  unfold useOTPAuth.logout in E. injection E as <- <- <-.
  repeat split.
  - exact Ho.
  - exact Hw.
  - intros uid. apply Hw, wiped_chatrooms_key.
  - intros rid. apply Hw, wiped_messages_key.
  - intros k Hk Hne. rewrite Hl, Hk. by rewrite decide_False.
  - rewrite lookup_delete_ne by done. apply lookup_delete_eq.
  - apply lookup_delete_eq.
  - by apply checkAuthState_absent.
  - intros u w Hls Hd. unfold Dashboard.loadChatrooms.
    rewrite Hd, Hls. simpl.
    by rewrite (Hw (chatrooms_key (u_id u)) (wiped_chatrooms_key _)).
Qed.

(** The short [logout] leaves every key other than [otpUser] as it
    was. *)
Lemma short_logout_lookup (ls : LocalStorage) (ss : SessionStorage) (k : string) :
  k ≠ "otpUser" → (useOTPAuth_short.logout ls ss).1.1 !! k = ls !! k.
Proof. intros Hk. simpl. by rewrite lookup_delete_ne. Qed.

(** C1 — after [logout] durable storage holds no chatroom or message key.
    Evaluated on the copy of the hook whose [logout] only removes the
    session record: the chatroom list and the message log of the user
    who signed out are still stored, under their keys, and the chatroom
    list loaded for that user's namespace is not empty. *)
Theorem C1_short_logout_keeps_chat_data :
  let '(ls', _, st) := useOTPAuth_short.logout used_storage ∅ in
  st = signedOut
  ∧ ls' !! "otpUser" = None
  ∧ ls' !! chatrooms_key "user_1" = Some (JChatrooms [trip])
  ∧ ls' !! messages_key "room_2" = Some (JMessages [hello])
  ∧ useOTPAuth.wiped (chatrooms_key "user_1") = true
  ∧ (useOTPAuth.logout used_storage ∅).1.1 !! chatrooms_key "user_1" = None
  ∧ (useOTPAuth.logout used_storage ∅).1.1 !! messages_key "room_2" = None.
Proof. vm_compute. repeat split. Qed.

(** C9 — [isAuthenticated == (user != null)] holds of the initial state
    and of the state every operation of the hook sets: the restore with
    its three branches, [login], and [logout] in both copies of the
    hook. *)
Theorem C9_session_invariant :
  session_invariant useOTPAuth.initial
  ∧ (∀ ls now, session_invariant (useOTPAuth.checkAuthState ls now))
  ∧ (∀ s now, session_invariant
       (useOTPAuth.checkAuthState (<["otpUser" := Text s]> ∅) now))
  ∧ (∀ u now ls, session_invariant (useOTPAuth.login u now ls).2)
  ∧ (∀ ls ss, session_invariant (useOTPAuth.logout ls ss).2)
  ∧ (∀ ls ss, session_invariant (useOTPAuth_short.logout ls ss).2).
Proof.
  repeat split; intros; try reflexivity; apply checkAuthState_invariant.
Qed.

(** ** Code generation *)

Lemma is_digit_pretty_N_char (x : N) : Js.is_digit (pretty_N_char x) = true.
Proof. unfold pretty_N_char. by repeat case_match. Qed.

(** The decimal rendering of a number between 100000 and 999999. *)
Lemma toString_six_digits (n : Z) :
  (100000 ≤ n ≤ 999999)%Z →
  String.length (Js.toString n) = 6%nat ∧ Js.all_digits (Js.toString n) = true.
Proof.
  intros Hn. unfold Js.toString, pretty, pretty_Z.
  destruct n as [|p|p]; [exfalso; lia| |exfalso; lia].
  unfold pretty, pretty_positive, pretty, pretty_N.
  rewrite decide_False by lia.
  do 6 (rewrite pretty_N_go_step by div_lia).
  match goal with
  | |- context [pretty_N_go ?x _] => replace x with 0%N by div_lia
  end.
  rewrite pretty_N_go_0. simpl.
  rewrite !is_digit_pretty_N_char. done.
Qed.

(** The decimal rendering denotes the number. *)
Lemma digit_value_pretty_N_char (x : N) :
  (x < 10)%N → digit_value (pretty_N_char x) = Z.of_N x.
Proof.
  intros Hx.
  assert (H : (x = 0 ∨ x = 1 ∨ x = 2 ∨ x = 3 ∨ x = 4 ∨ x = 5 ∨ x = 6
               ∨ x = 7 ∨ x = 8 ∨ x = 9)%N) by lia.
  repeat (destruct H as [->|H]; [reflexivity|]). by subst.
Qed.


Lemma decimal_value_six_digits (n : Z) :
  (100000 ≤ n ≤ 999999)%Z → decimal_value (Js.toString n) = n.
Proof.
  intros Hn. unfold Js.toString, pretty, pretty_Z.
  destruct n as [|p|p]; [exfalso; lia| |exfalso; lia].
  unfold pretty, pretty_positive, pretty, pretty_N.
  rewrite decide_False by lia.
  do 6 (rewrite pretty_N_go_step by div_lia).
  split_digit (N.pos p) q1 d0. split_digit q1 q2 d1. split_digit q2 q3 d2.
  split_digit q3 q4 d3. split_digit q4 q5 d4. split_digit q5 q6 d5.
  assert (q6 = 0%N) as -> by lia.
  rewrite pretty_N_go_0. unfold decimal_value. cbn [decimal_go].
  rewrite !digit_value_pretty_N_char by done.
  lia.
Qed.

(** *** Rounding to a double *)

Lemma pow2_pos e : (0 < Js.pow2 e)%Q.
Proof. apply Qpower_0_lt. reflexivity. Qed.

Lemma pow2_add a b : (Js.pow2 (a + b) == Js.pow2 a * Js.pow2 b)%Q.
Proof. apply Qpower_plus. discriminate. Qed.

Lemma pow2_le a b : (a ≤ b)%Z → (Js.pow2 a <= Js.pow2 b)%Q.
Proof. intros H. apply Qpower_le_compat_l; [exact H|]. discriminate. Qed.

Lemma pow2_lt a b : (a < b)%Z → (Js.pow2 a < Js.pow2 b)%Q.
Proof. intros H. apply Qpower_lt_compat_l; [exact H|]. reflexivity. Qed.

Lemma pow2_nonneg_Z k : (0 ≤ k)%Z → (Js.pow2 k == inject_Z (2 ^ k))%Q.
Proof. intros H. unfold Js.pow2. symmetry. apply (Zpower_Qpower 2 k H). Qed.

Lemma round_half_even_cases (q : Q) :
  Js.round_half_even q = Qfloor q ∨ Js.round_half_even q = (Qfloor q + 1)%Z.
Proof.
  unfold Js.round_half_even. cbn zeta.
  destruct (_ ?= _)%Q; [destruct (Z.even _)|..]; auto.
Qed.

Lemma round_half_even_Z (z : Z) : Js.round_half_even (inject_Z z) = z.
Proof.
  unfold Js.round_half_even. cbn zeta. rewrite Qfloor_Z.
  assert (H : (inject_Z z - inject_Z z ?= 1 # 2)%Q = Lt).
  { apply (proj1 (Qlt_alt _ _)). lra. }
  by rewrite H.
Qed.

Lemma round_half_even_mono (p q : Q) :
  (p <= q)%Q → (Js.round_half_even p ≤ Js.round_half_even q)%Z.
Proof.
  intros Hpq. pose proof (Qfloor_resp_le p q Hpq) as Hf.
  destruct (Z.eq_dec (Qfloor p) (Qfloor q)) as [Heq|Hne].
  - unfold Js.round_half_even. cbn zeta. rewrite Heq.
    set (f := Qfloor q) in *.
    destruct (p - inject_Z f ?= 1 # 2)%Q eqn:Hp;
      destruct (q - inject_Z f ?= 1 # 2)%Q eqn:Hq;
      try (destruct (Z.even f)); try lia; exfalso.
    all: try apply (proj2 (Qeq_alt _ _)) in Hp;
         try apply (proj2 (Qeq_alt _ _)) in Hq;
         try apply (proj2 (Qlt_alt _ _)) in Hp;
         try apply (proj2 (Qlt_alt _ _)) in Hq;
         try apply (proj2 (Qgt_alt _ _)) in Hp;
         try apply (proj2 (Qgt_alt _ _)) in Hq; lra.
  - destruct (round_half_even_cases p) as [-> | ->];
      destruct (round_half_even_cases q) as [-> | ->]; lia.
Qed.

Lemma ilog2_spec (x : Q) :
  (0 < x)%Q → (Js.pow2 (Js.ilog2 x) <= x)%Q ∧ (x < Js.pow2 (Js.ilog2 x + 1))%Q.
Proof.
  intros Hx. destruct x as [n d]. unfold Js.ilog2. cbn [Qnum Qden].
  assert (Hn : (0 < n)%Z).
  { unfold Qlt in Hx. simpl in Hx. lia. }
  set (a := Z.log2 n). set (b := Z.log2 (Z.pos d)).
  destruct (Z.log2_spec n Hn) as [Ha1 Ha2]. fold a in Ha1, Ha2.
  destruct (Z.log2_spec (Z.pos d) ltac:(lia)) as [Hb1 Hb2]. fold b in Hb1, Hb2.
  assert (Ha0 : (0 ≤ a)%Z) by apply Z.log2_nonneg.
  assert (Hb0 : (0 ≤ b)%Z) by apply Z.log2_nonneg.
  assert (HA1 : (Js.pow2 a <= inject_Z n)%Q).
  { rewrite pow2_nonneg_Z by done. by rewrite <- Zle_Qle. }
  assert (HA2 : (inject_Z n < Js.pow2 (a + 1))%Q).
  { rewrite pow2_nonneg_Z by lia. rewrite <- Zlt_Qlt. unfold Z.succ in Ha2. lia. }
  assert (HB1 : (Js.pow2 b <= inject_Z (Z.pos d))%Q).
  { rewrite pow2_nonneg_Z by done. by rewrite <- Zle_Qle. }
  assert (HB2 : (inject_Z (Z.pos d) < Js.pow2 (b + 1))%Q).
  { rewrite pow2_nonneg_Z by lia. rewrite <- Zlt_Qlt. unfold Z.succ in Hb2. lia. }
  assert (Hx' : (n # d == inject_Z n / inject_Z (Z.pos d))%Q) by apply Qmake_Qdiv.
  assert (Hd : (0 < inject_Z (Z.pos d))%Q) by (rewrite <- (Zlt_Qlt 0); lia).
  assert (Hmul : ((n # d) * inject_Z (Z.pos d) == inject_Z n)%Q).
  { rewrite Hx'. field. lra. }
  pose proof (pow2_pos a). pose proof (pow2_pos b). pose proof (pow2_pos (b + 1)).
  pose proof (pow2_pos (a - b)). pose proof (pow2_pos (a - b - 1)).
  pose proof (pow2_pos (a - b + 1)).
  assert (E1 : (Js.pow2 a == Js.pow2 (a - b) * Js.pow2 b)%Q).
  { rewrite <- pow2_add. by replace (a - b + b)%Z with a by lia. }
  assert (E2 : (Js.pow2 a == Js.pow2 (a - b - 1) * Js.pow2 (b + 1))%Q).
  { rewrite <- pow2_add. by replace (a - b - 1 + (b + 1))%Z with a by lia. }
  assert (E3 : (Js.pow2 (a + 1) == Js.pow2 (a - b + 1) * Js.pow2 b)%Q).
  { rewrite <- pow2_add. by replace (a - b + 1 + b)%Z with (a + 1)%Z by lia. }
  set (X := (n # d)%Q) in *. set (D := inject_Z (Z.pos d)) in *.
  set (N := inject_Z n) in *.
  assert (Hup : (X < Js.pow2 (a - b + 1))%Q).
  { destruct (Qlt_le_dec X (Js.pow2 (a - b + 1))) as [|Hc]; [done|]. exfalso.
    assert ((Js.pow2 (a - b + 1) * Js.pow2 b <= X * D)%Q).
    { apply Qmult_le_compat_nonneg; split; lra. }
    lra. }
  assert (Hlow : (Js.pow2 (a - b - 1) <= X)%Q).
  { destruct (Qlt_le_dec X (Js.pow2 (a - b - 1))) as [Hc|]; [|done]. exfalso.
    assert (HX0 : (0 <= X)%Q) by (apply Qlt_le_weak; exact Hx).
    assert ((X * D <= Js.pow2 (a - b - 1) * D)%Q).
    { apply Qmult_le_compat_r; lra. }
    assert ((Js.pow2 (a - b - 1) * D < Js.pow2 (a - b - 1) * Js.pow2 (b + 1))%Q).
    { apply Qmult_lt_l; lra. }
    lra. }
  destruct (Qle_bool (Js.pow2 (a - b)) X) eqn:Ht.
  - apply Qle_bool_iff in Ht. split; [exact Ht|exact Hup].
  - split; [exact Hlow|].
    replace (a - b - 1 + 1)%Z with (a - b)%Z by lia.
    destruct (Qlt_le_dec X (Js.pow2 (a - b))) as [|Hc]; [done|].
    apply Qle_bool_iff in Hc. congruence.
Qed.

Lemma pow2_lt_inv a b : (Js.pow2 a < Js.pow2 b)%Q → (a < b)%Z.
Proof.
  intros H. destruct (Z_lt_le_dec a b) as [|Hba]; [done|]. exfalso.
  pose proof (pow2_le b a Hba). lra.
Qed.

Lemma ilog2_mono (x y : Q) :
  (0 < x)%Q → (x <= y)%Q → (Js.ilog2 x ≤ Js.ilog2 y)%Z.
Proof.
  intros Hx Hxy.
  destruct (ilog2_spec x Hx) as [Hx1 _].
  destruct (ilog2_spec y ltac:(lra)) as [_ Hy2].
  assert (H : (Js.ilog2 x < Js.ilog2 y + 1)%Z) by (apply pow2_lt_inv; lra).
  lia.
Qed.

Lemma ilog2_unique (x : Q) (k : Z) :
  (Js.pow2 k <= x)%Q → (x < Js.pow2 (k + 1))%Q → Js.ilog2 x = k.
Proof.
  intros H1 H2. pose proof (pow2_pos k) as Hk.
  destruct (ilog2_spec x ltac:(lra)) as [Hx1 Hx2].
  assert (Js.ilog2 x < k + 1)%Z by (apply pow2_lt_inv; lra).
  assert (k < Js.ilog2 x + 1)%Z by (apply pow2_lt_inv; lra).
  lia.
Qed.

Lemma round_pos_mono (x y : Q) :
  (0 < x)%Q → (x <= y)%Q → (Js.round_pos x <= Js.round_pos y)%Q.
Proof.
  intros Hx Hxy. assert (Hy : (0 < y)%Q) by lra.
  pose proof (ilog2_mono x y Hx Hxy) as Hl.
  destruct (ilog2_spec x Hx) as [_ Hx2].
  destruct (ilog2_spec y Hy) as [Hy1 _].
  unfold Js.round_pos. cbn zeta.
  set (ex := Z.max (Js.ilog2 x - 52) (-1074)).
  set (ey := Z.max (Js.ilog2 y - 52) (-1074)).
  pose proof (pow2_pos ex) as Hex. pose proof (pow2_pos ey) as Hey.
  destruct (Z.eq_dec ex ey) as [He|Hne].
  - rewrite <- He. apply Qmult_le_compat_r; [|lra].
    rewrite <- Zle_Qle. apply round_half_even_mono.
    apply Qmult_le_compat_r; [done|].
    apply Qlt_le_weak, Qinv_lt_0_compat, Hex.
  - assert (Hlt : (Js.ilog2 x + 1 ≤ Js.ilog2 y)%Z) by lia.
    assert (Hey' : ey = (Js.ilog2 y - 52)%Z) by lia.
    pose proof (pow2_le _ _ Hlt) as Hb.
    apply Qle_trans with (Js.pow2 (Js.ilog2 y)).
    + assert (Hk : (0 ≤ Js.ilog2 y - ex)%Z) by lia.
      assert (HB : (Js.pow2 (Js.ilog2 y) == inject_Z (2 ^ (Js.ilog2 y - ex)) * Js.pow2 ex)%Q).
      { rewrite <- pow2_nonneg_Z by done. rewrite <- pow2_add.
        by replace (Js.ilog2 y - ex + ex)%Z with (Js.ilog2 y) by lia. }
      rewrite HB. apply Qmult_le_compat_r; [|lra].
      rewrite <- Zle_Qle.
      rewrite <- (round_half_even_Z (2 ^ (Js.ilog2 y - ex))).
      apply round_half_even_mono.
      apply Qle_shift_div_r; [done|]. rewrite <- HB. lra.
    + assert (HB : (Js.pow2 (Js.ilog2 y) == inject_Z (2 ^ 52) * Js.pow2 ey)%Q).
      { rewrite <- pow2_nonneg_Z by done. rewrite <- pow2_add.
        by replace (52 + ey)%Z with (Js.ilog2 y) by lia. }
      rewrite HB. apply Qmult_le_compat_r; [|lra].
      rewrite <- Zle_Qle.
      rewrite <- (round_half_even_Z (2 ^ 52)).
      apply round_half_even_mono.
      apply Qle_shift_div_l; [done|]. rewrite <- HB. lra.
Qed.

Lemma round_pos_nonneg (x : Q) : (0 < x)%Q → (0 <= Js.round_pos x)%Q.
Proof.
  intros Hx. unfold Js.round_pos. cbn zeta.
  set (e := Z.max (Js.ilog2 x - 52) (-1074)).
  pose proof (pow2_pos e) as He.
  apply Qmult_le_0_compat; [|lra].
  rewrite <- (Zle_Qle 0).
  rewrite <- (round_half_even_Z 0). apply round_half_even_mono.
  apply Qle_shift_div_l; [done|]. change (inject_Z 0) with 0%Q. lra.
Qed.

Lemma Qnum_pos (x : Q) : (0 < x)%Q ↔ (0 < Qnum x)%Z.
Proof. unfold Qlt. simpl. lia. Qed.

Lemma round_double_mono (x y : Q) :
  (0 <= x)%Q → (x <= y)%Q → (Js.round_double x <= Js.round_double y)%Q.
Proof.
  intros Hx Hxy. unfold Js.round_double.
  destruct (Qnum x) as [|p|p] eqn:Ex.
  - destruct (Qnum y) as [|q|q] eqn:Ey.
    + lra.
    + apply round_pos_nonneg. apply Qnum_pos. lia.
    + exfalso. assert (H : (0 <= y)%Q) by lra. unfold Qle in H. simpl in H. lia.
  - assert (H : (0 < x)%Q) by (apply Qnum_pos; lia).
    assert (H' : (0 < Qnum y)%Z) by (apply Qnum_pos; lra).
    destruct (Qnum y) as [|q|q]; [lia| |lia].
    by apply round_pos_mono.
  - exfalso. unfold Qle in Hx. simpl in Hx. lia.
Qed.

Lemma double_below_one (r : Q) :
  Js.is_double r → (r < 1)%Q → (r <= 1 - Js.pow2 (-53))%Q.
Proof.
  intros Hd H1.
  destruct (Qlt_le_dec r (1 # 2)) as [Hs|Hh].
  { assert ((Js.pow2 (-53) <= 1 # 2)%Q) by (vm_compute; discriminate). lra. }
  assert (Hr : (0 < r)%Q) by lra.
  assert (Hl : Js.ilog2 r = (-1)%Z).
  { apply ilog2_unique.
    - change (Js.pow2 (-1)) with (1 # 2)%Q. done.
    - change (Js.pow2 (-1 + 1)) with 1%Q. done. }
  unfold Js.is_double, Js.round_double in Hd.
  apply Qnum_pos in Hr. destruct (Qnum r) as [|p|p]; [lia| |lia].
  unfold Js.round_pos in Hd. cbn zeta in Hd. rewrite Hl in Hd.
  change (Z.max (-1 - 52) (-1074)) with (-53)%Z in Hd.
  set (m := Js.round_half_even (r / Js.pow2 (-53))) in *.
  pose proof (pow2_pos (-53)) as Hp.
  assert (Hm : (inject_Z m < inject_Z (2 ^ 53))%Q).
  { apply Qmult_lt_r with (Js.pow2 (-53)); [done|]. rewrite Hd.
    assert ((inject_Z (2 ^ 53) * Js.pow2 (-53) == 1)%Q) by (vm_compute; reflexivity).
    lra. }
  rewrite <- Zlt_Qlt in Hm.
  assert (Hm' : (inject_Z m <= inject_Z (2 ^ 53 - 1))%Q).
  { rewrite <- Zle_Qle. lia. }
  rewrite <- Hd.
  assert ((inject_Z (2 ^ 53 - 1) * Js.pow2 (-53) == 1 - Js.pow2 (-53))%Q) as <-
    by (vm_compute; reflexivity).
  apply Qmult_le_compat_r; [done|lra].
Qed.

(** The product by 900000 of a double below 1 rounds to a double below
    900000, and the sum with 100000 to a double below 1000000. *)
Lemma generatedNumber_range (r : Q) :
  Js.is_double r → (0 <= r)%Q → (r < 1)%Q →
  (100000 ≤ OTPAuth.generatedNumber r ≤ 999999)%Z.
Proof.
  intros Hd H0 H1. pose proof (double_below_one r Hd H1) as Hr.
  unfold OTPAuth.generatedNumber, Js.add, Js.mul.
  assert (Hlo : (0 <= Js.round_double (r * 900000))%Q).
  { change 0%Q with (Js.round_double 0) at 1. apply round_double_mono; lra. }
  assert (Hhi : (Js.round_double (r * 900000) <= 900000 - Js.pow2 (-33))%Q).
  { assert (E : (Js.round_double ((1 - Js.pow2 (-53)) * 900000)
                 == 900000 - Js.pow2 (-33))%Q)
      by (vm_compute; reflexivity).
    rewrite <- E. apply round_double_mono; [lra|].
    apply Qmult_le_compat_r; [done|lra]. }
  set (t := Js.round_double (r * 900000)) in *.
  split.
  - apply Z.le_trans with (Qfloor (Js.round_double 100000));
      [by vm_compute|].
    apply Qfloor_resp_le, round_double_mono; lra.
  - apply Z.le_trans
      with (Qfloor (Js.round_double (100000 + (900000 - Js.pow2 (-33)))));
      [|by vm_compute].
    apply Qfloor_resp_le, round_double_mono; lra.
Qed.

(** The rounding is visible in the result: for this double the exact
    sum lies below 688871 and the sum of the doubles is 688871. *)
Lemma generatedNumber_rounds_up :
  let r := (5893420480376203 # 9007199254740992)%Q in
  Js.is_double r
  ∧ Qfloor (100000 + r * 900000) = 688870%Z
  ∧ OTPAuth.generatedNumber r = 688871%Z.
Proof. cbn zeta. split; [by vm_compute|]. split; by vm_compute. Qed.

Lemma strip_non_digits_id (s : string) :
  Js.all_digits s = true → Js.strip_non_digits s = s.
Proof.
  induction s as [|c s IH]; simpl; [done|].
  intros [Hc Hs]%andb_true_iff. rewrite Hc. by rewrite IH.
Qed.

Lemma substring0_short (n : nat) (s : string) :
  (String.length s ≤ n)%nat → Js.substring0 n s = s.
Proof.
  unfold Js.substring0. revert n.
  induction s as [|c s IH]; intros [|n] Hn; simpl in *; try done; [lia|].
  rewrite IH; [done|lia].
Qed.

Lemma truthy_trim_digits (s : string) :
  Js.all_digits s = true → s ≠ "" → Js.truthy (Js.trim s) = true.
Proof. intros Hs Hne. rewrite trim_digits by done. by destruct s. Qed.

(** The guard of [verifyOTP] lets a string of six digits through. *)
Lemma verifyOTP_six_digits (st : OTPState) :
  String.length (otp st) = 6%nat → Js.all_digits (otp st) = true →
  OTPAuth.verifyOTP st
  = (OTPAuth.set_loading st,
     Some {| OTPAuth.v_otp := otp st; OTPAuth.v_phone := phone st;
             OTPAuth.v_countryCode := countryCode st |}).
Proof.
  intros Hlen Hd. unfold OTPAuth.verifyOTP.
  rewrite truthy_trim_digits; [|done|by destruct (otp st)].
  rewrite Hlen. reflexivity.
Qed.

(** C10 — for every double [r] with [0 <= r < 1] that the random
    source returns, the generated number lies between 100000 and 999999
    and the code is the string of exactly six decimal digits that
    denotes it; once the timeout of [sendOTP] has stored it, the same
    code typed into the code input passes the length guard of
    [verifyOTP] and is accepted. *)
Theorem C10_generated_code_has_six_digits (r : Q) :
  Js.is_double r → (0 <= r)%Q → (r < 1)%Q →
  (100000 ≤ OTPAuth.generatedNumber r ≤ 999999)%Z
  ∧ decimal_value (OTPAuth.generateOTP r) = OTPAuth.generatedNumber r
  ∧ String.length (OTPAuth.generateOTP r) = 6%nat
  ∧ Js.all_digits (OTPAuth.generateOTP r) = true
  ∧ ∀ (sc : OTPAuth.SendClosure) (ss : SessionStorage) (ls : LocalStorage)
      (prev : OTPState) (now : Z),
      let '(ss1, st1) := OTPAuth.sendOTP_timeout sc r ss prev in
      let st2 := OTPAuth.onOtpChange (OTPAuth.generateOTP r) st1 in
      ss1 !! "otp" = Some (OTPAuth.generateOTP r)
      ∧ otp st2 = OTPAuth.generateOTP r
      ∧ ∃ vc, OTPAuth.verifyOTP st2 = (OTPAuth.set_loading st2, Some vc)
          ∧ step (OTPAuth.verifyOTP_timeout vc now ss1 ls
                    (OTPAuth.set_loading st2)).1.2 = verified_step.
Proof.
  intros Hdbl H0 H1.
  pose proof (generatedNumber_range r Hdbl H0 H1) as Hr.
  destruct (toString_six_digits _ Hr) as [Hlen Hd].
  pose proof (decimal_value_six_digits _ Hr) as Hval.
  fold (OTPAuth.generateOTP r) in Hlen, Hd, Hval.
  split; [exact Hr|]. split; [exact Hval|].
  split; [exact Hlen|]. split; [exact Hd|].
  intros sc ss ls prev now. unfold OTPAuth.sendOTP_timeout. cbn zeta.
  set (code := OTPAuth.generateOTP r) in *.
  assert (Hst : Js.substring0 6 (Js.strip_non_digits code) = code).
  { rewrite strip_non_digits_id by done. apply substring0_short. lia. }
  split; [by rewrite lookup_insert_ne, lookup_insert_eq|].
  split; [exact Hst|].
  eexists. split.
  - rewrite verifyOTP_six_digits; [reflexivity|simpl; by rewrite Hst..].
  - unfold OTPAuth.verifyOTP_timeout. cbn zeta. simpl.
    rewrite Hst, lookup_insert_ne, lookup_insert_eq by done.
    by rewrite decide_True.
Qed.

Lemma C10_generated_code_witness :
  Js.is_double (5893420480376203 # 9007199254740992)
  ∧ (0 <= 5893420480376203 # 9007199254740992)%Q
  ∧ (5893420480376203 # 9007199254740992 < 1)%Q
  ∧ decimal_value (OTPAuth.generateOTP (5893420480376203 # 9007199254740992))
    = OTPAuth.generatedNumber (5893420480376203 # 9007199254740992).
Proof.
  assert (Hd : Js.is_double (5893420480376203 # 9007199254740992))
    by (vm_compute; reflexivity).
  assert (H0 : (0 <= 5893420480376203 # 9007199254740992)%Q)
    by (vm_compute; discriminate).
  assert (H1 : (5893420480376203 # 9007199254740992 < 1)%Q)
    by (vm_compute; reflexivity).
  split; [exact Hd|]. split; [exact H0|]. split; [exact H1|].
  exact (proj1 (proj2 (C10_generated_code_has_six_digits _ Hd H0 H1))).
Defined.

(** ** Phone entry and verification *)

(** C8 — the phone input keeps the digits of what is typed, so [sendOTP]
    works on the digits-only form: when that form is empty [sendOTP]
    sets the validation error, keeps the step and sets no timeout, so
    that no challenge is stored; otherwise the timeout it sets stores
    the code and the country code followed by the digits-only phone, and
    moves to the [otp] step. *)
Theorem C8_phone_digits_only (value : string) (st : OTPState) :
  let st1 := OTPAuth.onPhoneChange value st in
  phone st1 = Js.strip_non_digits value
  ∧ Js.all_digits (phone st1) = true
  ∧ (Js.strip_non_digits value = "" →
       OTPAuth.sendOTP st1
       = (OTPAuth.set_error "Please enter a valid phone number" st1, None)
       ∧ step (OTPAuth.sendOTP st1).1 = step st
       ∧ error (OTPAuth.sendOTP st1).1 = Some "Please enter a valid phone number")
  ∧ (Js.strip_non_digits value ≠ "" →
       ∃ sc, OTPAuth.sendOTP st1 = (OTPAuth.set_loading st1, Some sc)
         ∧ OTPAuth.s_phone sc = Js.strip_non_digits value
         ∧ OTPAuth.s_countryCode sc = countryCode st
         ∧ step (OTPAuth.sendOTP st1).1 = step st
         ∧ ∀ (r : Q) (ss : SessionStorage) (prev : OTPState),
             let '(ss1, st2) := OTPAuth.sendOTP_timeout sc r ss prev in
             ss1 !! "otp" = Some (OTPAuth.generateOTP r)
             ∧ ss1 !! "otpPhone"
               = Some (countryCode st +:+ Js.strip_non_digits value)
             ∧ step st2 = otp_step ∧ phone st2 = phone prev).
Proof.
  cbn zeta. simpl.
  split; [done|]. split; [apply strip_non_digits_all_digits|].
  unfold OTPAuth.sendOTP. simpl.
  rewrite (trim_digits _ (strip_non_digits_all_digits value)).
  split.
  - intros ->. simpl. done.
  - intros Hne. destruct (Js.strip_non_digits value) as [|c s] eqn:E; [done|].
    simpl. eexists. split; [reflexivity|]. simpl.
    repeat split. by rewrite lookup_insert_ne, lookup_insert_eq.
    by rewrite lookup_insert_eq.
Qed.

Lemma C8_phone_digits_only_witness :
  Js.strip_non_digits "(555) 123-4567" ≠ ""
  ∧ Js.strip_non_digits " - " = ""
  ∧ (OTPAuth.sendOTP (OTPAuth.onPhoneChange " - " OTPAuth.initial)).2 = None
  ∧ ∃ sc, (OTPAuth.sendOTP
             (OTPAuth.onPhoneChange "(555) 123-4567" OTPAuth.initial)).2 = Some sc
       ∧ OTPAuth.s_phone sc = "5551234567".
Proof.
  assert (H1 : Js.strip_non_digits "(555) 123-4567" ≠ "") by (vm_compute; discriminate).
  assert (H2 : Js.strip_non_digits " - " = "") by reflexivity.
  split; [exact H1|]. split; [exact H2|].
  destruct (C8_phone_digits_only "(555) 123-4567" OTPAuth.initial)
    as (_ & _ & _ & Hsend).
  destruct (C8_phone_digits_only " - " OTPAuth.initial)
    as (_ & _ & Hrej & _).
  destruct (Hrej H2) as (Hr & _).
  destruct (Hsend H1) as (sc & Hs & Hp & _).
  split; [by rewrite Hr|].
  exists sc. split; [by rewrite Hs|exact Hp].
Defined.

(** The timeout of [sendOTP] overwrites the stored code: after two of
    them the challenge is the code generated last. *)
Lemma sendOTP_timeout_overwrites (sc1 sc2 : OTPAuth.SendClosure) (r1 r2 : Q)
    (ss : SessionStorage) (prev1 prev2 : OTPState) :
  (OTPAuth.sendOTP_timeout sc2 r2
     (OTPAuth.sendOTP_timeout sc1 r1 ss prev1).1 prev2).1 !! "otp"
  = Some (OTPAuth.generateOTP r2).
Proof. simpl. by rewrite lookup_insert_ne, lookup_insert_eq. Qed.

(** C2 — with a challenge stored and the form at the [otp] step,
    [verifyOTP] called with a string of six digits passes the guard, and
    its timeout moves to [verified] and creates the user exactly when the
    string equals the stored code; for every other string of six digits
    it sets the error [Invalid OTP], creates no user, leaves both
    storages as they were and stays at [otp]. *)
Theorem C2_verify_iff_equal (st prev : OTPState) (code : string)
    (now : Z) (ss : SessionStorage) (ls : LocalStorage) :
  ss !! "otp" = Some code →
  step prev = otp_step →
  String.length (otp st) = 6%nat →
  Js.all_digits (otp st) = true →
  ∃ vc, OTPAuth.verifyOTP st = (OTPAuth.set_loading st, Some vc)
    ∧ let '(ss', ls', st', created) :=
        OTPAuth.verifyOTP_timeout vc now ss ls prev in
      ((step st' = verified_step ∧ is_Some created) ↔ otp st = code)
      ∧ (otp st = code →
           created = Some {| i_id := "user_" +:+ Js.toString now;
                             i_phone := phone st;
                             i_countryCode := countryCode st |}
           ∧ ls' !! "otpUser" = (JIdentity <$> created)
           ∧ ss' !! "otp" = None ∧ ss' !! "otpPhone" = None
           ∧ error st' = error prev)
      ∧ (otp st ≠ code →
           step st' = otp_step
           ∧ error st' = Some "Invalid OTP. Please try again."
           ∧ created = None ∧ ls' = ls ∧ ss' = ss).
Proof.
  intros Hss Hstep Hlen Hd.
  eexists. split; [by apply verifyOTP_six_digits|].
  unfold OTPAuth.verifyOTP_timeout. cbn zeta. simpl. rewrite Hss.
  destruct (decide (Some (otp st) = Some code)) as [[= Heq]|Hne].
  - split; [split; [done|]; intros _; split; [done|by eexists]|].
    split; [|done]. intros _.
    split; [done|]. split; [by rewrite lookup_insert_eq|].
    split; [by rewrite lookup_delete_ne, lookup_delete_eq|].
    split; [by rewrite lookup_delete_eq|done].
  - assert (otp st ≠ code) by congruence.
    split; [split; [|done]; intros [_ [? [=]]]|].
    split; [done|]. intros _. done.
Qed.

Lemma C2_verify_iff_equal_witness :
  (step (OTPAuth.verifyOTP_timeout
           (OTPAuth.mkVerifyClosure "000000" "5551234" "+1") 7
           challenge ∅ (at_otp "000000")).1.2 = otp_step)
  ∧ (step (OTPAuth.verifyOTP_timeout
           (OTPAuth.mkVerifyClosure "123456" "5551234" "+1") 7
           challenge ∅ (at_otp "123456")).1.2 = verified_step).
Proof.
  pose proof (C2_verify_iff_equal (at_otp "000000") (at_otp "000000") "123456" 7
                challenge ∅
                ltac:(vm_compute; reflexivity) ltac:(reflexivity) ltac:(reflexivity)
                ltac:(reflexivity)) as (vc & Hv & H).
  pose proof (C2_verify_iff_equal (at_otp "123456") (at_otp "123456") "123456" 7
                challenge ∅
                ltac:(vm_compute; reflexivity) ltac:(reflexivity) ltac:(reflexivity)
                ltac:(reflexivity)) as (vc' & Hv' & H').
  injection Hv as <-. injection Hv' as <-.
  split.
  - destruct (OTPAuth.verifyOTP_timeout _ _ _ _ _) as [[[ss' ls'] st'] created].
    destruct H as (_ & _ & Hbad). apply Hbad. vm_compute. discriminate.
  - destruct (OTPAuth.verifyOTP_timeout _ _ _ _ _) as [[[ss' ls'] st'] created].
    destruct H' as (Hiff & _). apply Hiff. reflexivity.
Defined.

(** ** Chatrooms *)

Lemma room_id_inj (t1 t2 : Z) : room_id t1 = room_id t2 → t1 = t2.
Proof.
  unfold room_id, Js.toString. intros H.
  apply (inj (String.app "room_")) in H. by apply (inj pretty) in H.
Qed.

Lemma createChatroom_blank (dc : DashClosure) (now : Z) (w : World) :
  Js.trim (dc_newChatroomName dc) = "" → Dashboard.createChatroom dc now w = w.
Proof. intros H. unfold Dashboard.createChatroom. by rewrite H. Qed.

Lemma createChatroom_signed_out (dc : DashClosure) (now : Z) (w : World) :
  dc_user dc = None → Dashboard.createChatroom dc now w = w.
Proof.
  intros H. unfold Dashboard.createChatroom. rewrite H.
  by destruct (Js.truthy _).
Qed.

Lemma createChatroom_named (dc : DashClosure) (u : User) (now : Z) (w : World) :
  Js.trim (dc_newChatroomName dc) ≠ "" → dc_user dc = Some u →
  let room := Dashboard.newRoom (dc_newChatroomName dc) u now in
  let w' := Dashboard.createChatroom dc now w in
  chatrooms (dashboard w') = room :: dc_chatrooms dc
  ∧ localStorage w' = <[chatrooms_key (u_id u) := JChatrooms (room :: dc_chatrooms dc)]>
                        (localStorage w)
  ∧ selectedChatroom (dashboard w') = Some room
  ∧ newChatroomName (dashboard w') = ""
  ∧ isCreating (dashboard w') = false.
Proof.
  intros Hname Hu. unfold Dashboard.createChatroom. rewrite Hu.
  destruct (Js.truthy _) eqn:Ht; [|by apply truthy_false in Ht].
  unfold Dashboard.saveChatrooms. rewrite Hu. cbn zeta.
  unfold Dashboard.setSelectedChatroom, Dashboard.closeCreateForm. simpl.
  destruct (chat w); done.
Qed.

(** C6 — a blank name fails with a validation error and the id of a new
    chatroom is unique.  Evaluated: [createChatroom] called with the
    name of three spaces returns with nothing changed, the form still
    open with the name in it, and no part of the state holds an error;
    and two chatrooms created at the same clock reading, both in the
    list and in storage, have the same id. *)
Lemma C6_blank_is_silent_and_ids_repeat :
  Js.trim (newChatroomName (dashboard w_blank)) = ""
  ∧ Dashboard.createChatroom (Dashboard.render w_blank) 5 w_blank = w_blank
  ∧ isCreating (dashboard w_blank) = true
  ∧ (let twice := create_all alice_user [("A", 5%Z); ("B", 5%Z)] empty_world in
     (c_id <$> chatrooms (dashboard twice)) = ["room_5"; "room_5"]
     ∧ (c_name <$> chatrooms (dashboard twice)) = ["B"; "A"]
     ∧ localStorage twice !! chatrooms_key "user_1"
       = Some (JChatrooms (chatrooms (dashboard twice)))).
Proof. vm_compute. repeat split. Qed.

(** C6, as it holds — [createChatroom] trims the name: with [""] or ["   "] as the
    name it returns without any change, and so it does for every name
    whose trimmed form is empty; with [" Demo "] and a signed-in user it
    makes the chatroom named ["Demo"], with id [room_<now>], a different
    id from the one made at any other clock reading, and [createdAt]
    the clock reading, puts it in front of the list, selects it and
    stores the new list under the user's key. *)
Theorem C6_create_trims_name (u : User) (signedIn : option User)
    (rooms : list Chatroom) (sel : option Chatroom) (now : Z) (w : World) :
  let dc name usr :=
    {| dc_user := usr; dc_chatrooms := rooms; dc_selectedChatroom := sel;
       dc_newChatroomName := name |} in
  let room :=
    {| c_id := room_id now; c_name := "Demo"; c_lastMessage := None;
       c_lastMessageTime := None; c_userId := u_id u; c_createdAt := now |} in
  let w' := Dashboard.createChatroom (dc " Demo " (Some u)) now w in
  Dashboard.createChatroom (dc "" signedIn) now w = w
  ∧ Dashboard.createChatroom (dc "   " signedIn) now w = w
  ∧ (∀ name, Js.trim name = "" →
       Dashboard.createChatroom (dc name signedIn) now w = w)
  ∧ chatrooms (dashboard w') = room :: rooms
  ∧ localStorage w' !! chatrooms_key (u_id u) = Some (JChatrooms (room :: rooms))
  ∧ (∀ k, k ≠ chatrooms_key (u_id u) → localStorage w' !! k = localStorage w !! k)
  ∧ selectedChatroom (dashboard w') = Some room
  ∧ (∀ t, t ≠ now → room_id t ≠ c_id room)
  ∧ (Forall (fun r => ∃ t, t ≠ now ∧ c_id r = room_id t) rooms →
       c_id room ∉ c_id <$> rooms).
Proof.
  cbn zeta.
  split; [by apply createChatroom_blank|].
  split; [by apply createChatroom_blank|].
  split; [intros name Hn; by apply createChatroom_blank|].
  destruct (createChatroom_named
              {| dc_user := Some u; dc_chatrooms := rooms;
                 dc_selectedChatroom := sel; dc_newChatroomName := " Demo " |}
              u now w) as (Hrooms & Hls & Hsel & _); [by vm_compute|done|].
  simpl in Hrooms, Hls, Hsel.
  change (Dashboard.newRoom " Demo " u now)
    with {| c_id := room_id now; c_name := "Demo"; c_lastMessage := None;
            c_lastMessageTime := None; c_userId := u_id u; c_createdAt := now |}
    in Hrooms, Hls, Hsel.
  split; [exact Hrooms|].
  split; [by rewrite Hls, lookup_insert_eq|].
  split; [intros k Hk; by rewrite Hls, lookup_insert_ne|].
  split; [exact Hsel|].
  split; [intros t Ht E; by apply room_id_inj in E|].
  intros Hall [r [Hid Hin]]%list_elem_of_fmap. simpl in Hid.
  rewrite Forall_forall in Hall. destruct (Hall r Hin) as (t & Ht & Hr).
  rewrite Hr in Hid. by apply room_id_inj in Hid.
Qed.

Lemma C6_create_trims_name_witness :
  Forall (fun r => ∃ t, t ≠ 5%Z ∧ c_id r = room_id t) [trip]
  ∧ room_id 5 ∉ c_id <$> [trip].
Proof.
  assert (H : Forall (fun r => ∃ t, t ≠ 5%Z ∧ c_id r = room_id t) [trip]).
  { constructor; [|constructor]. exists 2%Z. split; [lia|reflexivity]. }
  split; [exact H|].
  exact (proj2 (proj2 (proj2 (proj2 (proj2 (proj2 (proj2 (proj2
           (C6_create_trims_name alice_user None [trip] None 5 empty_world))))))))
         H).
Defined.

(** ** Messages *)

Lemma localStorage_update (mount : nat) (f : ChatState → ChatState) (w : World) :
  localStorage (ChatInterface.update mount f w) = localStorage w.
Proof.
  unfold ChatInterface.update. destruct (chat w); [|done]. by case_decide.
Qed.

Lemma dashboard_update (mount : nat) (f : ChatState → ChatState) (w : World) :
  dashboard (ChatInterface.update mount f w) = dashboard w.
Proof.
  unfold ChatInterface.update. destruct (chat w); [|done]. by case_decide.
Qed.

Lemma update_unmounted (mount : nat) (f : ChatState → ChatState) (w : World) :
  chat w = None → ChatInterface.update mount f w = w.
Proof. intros H. unfold ChatInterface.update. by rewrite H. Qed.

(** The timeout callback of [sendMessage] writes nothing to storage
    and leaves the chatroom list alone. *)
Lemma fire_AiReply_frame (cc : ChatClosure) (now : Z) (w : World) :
  localStorage (ChatInterface.fire (AiReply cc) now w).1 = localStorage w
  ∧ dashboard (ChatInterface.fire (AiReply cc) now w).1 = dashboard w
  ∧ (ChatInterface.fire (AiReply cc) now w).2 = [].
Proof.
  simpl. unfold ChatInterface.setIsTyping, ChatInterface.setMessages.
  by rewrite !localStorage_update, !dashboard_update.
Qed.

Lemma saveMessages_spec (cc : ChatClosure) (u : User)
    (msgs : list Message) (m : Message) (w : World) :
  dc_user (cc_onUpdateChatroom cc) = Some u →
  let room := ChatInterface.withPreview (cc_chatroom cc) m in
  let updatedRooms :=
    (fun r => if decide (c_id r = c_id (cc_chatroom cc)) then room else r)
      <$> dc_chatrooms (cc_onUpdateChatroom cc) in
  let w' := ChatInterface.saveMessages cc (msgs ++ [m]) w in
  localStorage w'
  = <[chatrooms_key (u_id u) := JChatrooms updatedRooms]>
      (<[messages_key (c_id (cc_chatroom cc)) := JMessages (msgs ++ [m])]>
         (localStorage w))
  ∧ chatrooms (dashboard w') = updatedRooms.
Proof.
  intros Hu. cbn zeta. unfold ChatInterface.saveMessages.
  rewrite last_snoc. cbn zeta.
  unfold Dashboard.onUpdateChatroom, Dashboard.saveChatrooms. rewrite Hu.
  unfold ChatInterface.setMessages. simpl.
  by rewrite localStorage_update.
Qed.




(** C3 — the reply to a text message is added to the persisted log.
    Evaluated on a fresh chatroom: [sendMessage] stores the user message
    at once and the chatroom preview shows it; when the timeout runs the
    list held by the mounted view has the user message followed by the
    reply, but the stored log still has the user message alone and the
    preview is still that of the user message, so the view of the same
    chatroom opened again shows one message.  The reply to an image goes
    through [saveMessages] and is stored. *)
Theorem C3_text_reply_not_persisted :
  ChatInterface.render w_typed = Some typed_closure
  ∧ localStorage w_typed !! messages_key "room_2" = None
  ∧ (let '(w1, pending) := ChatInterface.sendMessage typed_closure 3 w_typed in
     let '(w2, _) := ChatInterface.fire (AiReply typed_closure) 1003 w1 in
     let reopened := settle 1 (Dashboard.setSelectedChatroom (Some (trip_with hello))
                                 (Dashboard.onBack w2)) in
     pending = [AiReply typed_closure]
     ∧ localStorage w1 !! messages_key "room_2" = Some (JMessages [hello])
     ∧ chatrooms (dashboard w1) = [trip_with hello]
     ∧ (messages <$> chat w2) = Some [hello; reply]
     ∧ m_isUser reply = false
     ∧ localStorage w2 !! messages_key "room_2" = Some (JMessages [hello])
     ∧ localStorage w2 !! chatrooms_key "user_1" = Some (JChatrooms [trip_with hello])
     ∧ (messages <$> chat reopened) = Some [hello])
  ∧ (let '(w1, pending) := ChatInterface.fire (ReaderLoad opened_closure photo) 3 w_opened in
     let image := ChatInterface.imageMessage opened_closure photo 3 in
     let answer := ChatInterface.aiResponse opened_closure 1503 in
     pending = [ImageAiReply opened_closure [image]]
     ∧ localStorage (ChatInterface.fire (ImageAiReply opened_closure [image]) 1503 w1).1
         !! messages_key "room_2" = Some (JMessages [image; answer])).
Proof. vm_compute. repeat split. Qed.

(** ** A reply that runs after its chatroom was deleted *)

Lemma localStorage_setSelectedChatroom (sel : option Chatroom) (w : World) :
  localStorage (Dashboard.setSelectedChatroom sel w) = localStorage w.
Proof.
  unfold Dashboard.setSelectedChatroom. by destruct sel, (chat w).
Qed.

Lemma chatrooms_setSelectedChatroom (sel : option Chatroom) (w : World) :
  chatrooms (dashboard (Dashboard.setSelectedChatroom sel w)) = chatrooms (dashboard w).
Proof.
  unfold Dashboard.setSelectedChatroom. by destruct sel, (chat w).
Qed.

Lemma deleteChatroom_spec (dc : DashClosure) (u : User) (rid : string) (w : World) :
  dc_user dc = Some u →
  let rooms := filter (fun r => c_id r ≠ rid) (dc_chatrooms dc) in
  let w' := Dashboard.deleteChatroom dc rid w in
  localStorage w' = delete (messages_key rid)
                      (<[chatrooms_key (u_id u) := JChatrooms rooms]> (localStorage w))
  ∧ chatrooms (dashboard w') = rooms.
Proof.
  intros Hu. unfold Dashboard.deleteChatroom, Dashboard.saveChatrooms.
  rewrite Hu. cbn zeta.
  destruct (dc_selectedChatroom dc) as [sel|]; [case_decide|]; simpl;
    by rewrite ?localStorage_setSelectedChatroom, ?chatrooms_setSelectedChatroom.
Qed.

(** [saveMessages] stores the list it is given under the key of the
    chatroom of its closure, whether or not that chatroom is still in
    the list. *)
Lemma saveMessages_stores (cc : ChatClosure) (l : list Message) (w : World) :
  localStorage (ChatInterface.saveMessages cc l w) !! messages_key (c_id (cc_chatroom cc))
  = Some (JMessages l).
Proof.
  unfold ChatInterface.saveMessages. cbn zeta.
  destruct (last l) as [m|].
  - unfold Dashboard.onUpdateChatroom, Dashboard.saveChatrooms.
    destruct (dc_user _) as [u|]; simpl;
      unfold ChatInterface.setMessages; rewrite localStorage_update; simpl.
    + rewrite lookup_insert_ne by apply chatrooms_key_ne_messages_key.
      apply lookup_insert_eq.
    + apply lookup_insert_eq.
  - unfold ChatInterface.setMessages. rewrite localStorage_update. simpl.
    apply lookup_insert_eq.
Qed.

Lemma fire_ImageAiReply_spec (cc : ChatClosure) (u : User)
    (newMessages : list Message) (now : Z) (w : World) :
  dc_user (cc_onUpdateChatroom cc) = Some u →
  let answer := ChatInterface.aiResponse cc now in
  let updatedRooms :=
    (fun r => if decide (c_id r = c_id (cc_chatroom cc))
              then ChatInterface.withPreview (cc_chatroom cc) answer else r)
      <$> dc_chatrooms (cc_onUpdateChatroom cc) in
  let w' := (ChatInterface.fire (ImageAiReply cc newMessages) now w).1 in
  localStorage w'
  = <[chatrooms_key (u_id u) := JChatrooms updatedRooms]>
      (<[messages_key (c_id (cc_chatroom cc)) := JMessages (newMessages ++ [answer])]>
         (localStorage w))
  ∧ chatrooms (dashboard w') = updatedRooms.
Proof.
  intros Hu. simpl. unfold ChatInterface.setIsTyping.
  rewrite localStorage_update, dashboard_update.
  by apply saveMessages_spec.
Qed.

(** C4, as stated — when the chatroom was deleted before the reply
    timeout runs, no write is made to its message log, on the image path
    as on the text path.  On the image path it fails: after the deletion
    the log key is absent and the chatroom list is empty; the timeout
    then stores the image message and the reply under the key of the
    deleted chatroom and stores the chatroom list of its closure, which
    still has the chatroom. *)
Lemma C4_image_reply_written_after_delete :
  let image := ChatInterface.imageMessage opened_closure photo 3 in
  let answer := ChatInterface.aiResponse opened_closure 1503 in
  let pending := ImageAiReply opened_closure [image] in
  let w' := (ChatInterface.fire pending 1503 w_deleted).1 in
  (ChatInterface.fire (ReaderLoad opened_closure photo) 3 w_opened).2 = [pending]
  ∧ chat w_deleted = None
  ∧ chatrooms (dashboard w_deleted) = []
  ∧ localStorage w_deleted !! chatrooms_key "user_1" = Some (JChatrooms [])
  ∧ localStorage w_deleted !! messages_key "room_2" = None
  ∧ localStorage w' !! messages_key "room_2" = Some (JMessages [image; answer])
  ∧ localStorage w' !! messages_key "room_2" ≠ localStorage w_deleted !! messages_key "room_2"
  ∧ localStorage w' !! chatrooms_key "user_1" = Some (JChatrooms [trip_with answer])
  ∧ chatrooms (dashboard w') = [trip_with answer].
Proof. vm_compute. repeat split. discriminate. Qed.

(** C4, amended — after [deleteChatroom] the log key of the chatroom is
    absent.  The reply callbacks are total functions of the state they
    find, so none raises an error.  The timeout of the text path writes
    nothing to storage and does not touch the chatroom list.  The
    timeout of the image path has no check for the chatroom: it stores
    the messages of its closure followed by the reply under the log key
    of the deleted chatroom, and replaces the chatroom list, in state
    and in storage, by the list of its closure with the preview of that
    chatroom set from the reply. *)
Theorem C4_reply_after_delete (dc : DashClosure) (cc : ChatClosure) (u u' : User)
    (newMessages : list Message) (now : Z) (w : World) :
  dc_user dc = Some u →
  dc_user (cc_onUpdateChatroom cc) = Some u' →
  let rid := c_id (cc_chatroom cc) in
  let w1 := Dashboard.deleteChatroom dc rid w in
  let text := ChatInterface.fire (AiReply cc) now w1 in
  let image := ChatInterface.fire (ImageAiReply cc newMessages) now w1 in
  let answer := ChatInterface.aiResponse cc now in
  let updatedRooms :=
    (fun r => if decide (c_id r = rid)
              then ChatInterface.withPreview (cc_chatroom cc) answer else r)
      <$> dc_chatrooms (cc_onUpdateChatroom cc) in
  localStorage w1 !! messages_key rid = None
  ∧ chatrooms (dashboard w1) = filter (fun r => c_id r ≠ rid) (dc_chatrooms dc)
  ∧ localStorage text.1 = localStorage w1
  ∧ dashboard text.1 = dashboard w1
  ∧ text.2 = []
  ∧ (chat w1 = None → text.1 = w1)
  ∧ localStorage image.1 !! messages_key rid = Some (JMessages (newMessages ++ [answer]))
  ∧ localStorage image.1 !! chatrooms_key (u_id u') = Some (JChatrooms updatedRooms)
  ∧ chatrooms (dashboard image.1) = updatedRooms
  ∧ image.2 = [].
Proof.
  intros Hu Hu'. cbn zeta.
  destruct (deleteChatroom_spec dc u (c_id (cc_chatroom cc)) w Hu) as [Hls Hd].
  cbn zeta in Hls, Hd.
  destruct (fire_AiReply_frame cc now
              (Dashboard.deleteChatroom dc (c_id (cc_chatroom cc)) w))
    as (Ht1 & Ht2 & Ht3).
  destruct (fire_ImageAiReply_spec cc u' newMessages now
              (Dashboard.deleteChatroom dc (c_id (cc_chatroom cc)) w) Hu')
    as [Hi1 Hi2].
  cbn zeta in Hi1, Hi2.
  split; [rewrite Hls; apply lookup_delete_eq|].
  split; [exact Hd|]. split; [exact Ht1|]. split; [exact Ht2|].
  split; [exact Ht3|].
  split.
  { intros Hc. simpl. unfold ChatInterface.setIsTyping, ChatInterface.setMessages.
    by rewrite !(update_unmounted _ _ _ Hc). }
  split.
  { rewrite Hi1, lookup_insert_ne by apply chatrooms_key_ne_messages_key.
    apply lookup_insert_eq. }
  split; [rewrite Hi1; apply lookup_insert_eq|].
  split; [exact Hi2|reflexivity].
Qed.

Lemma C4_reply_after_delete_witness :
  dc_user (Dashboard.render w_left) = Some alice_user
  ∧ dc_user (cc_onUpdateChatroom opened_closure) = Some alice_user
  ∧ localStorage
      (ChatInterface.fire
         (ImageAiReply opened_closure [ChatInterface.imageMessage opened_closure photo 3])
         1503 w_deleted).1 !! messages_key "room_2"
    = Some (JMessages [ChatInterface.imageMessage opened_closure photo 3;
                       ChatInterface.aiResponse opened_closure 1503]).
Proof.
  assert (H1 : dc_user (Dashboard.render w_left) = Some alice_user)
    by (vm_compute; reflexivity).
  assert (H2 : dc_user (cc_onUpdateChatroom opened_closure) = Some alice_user)
    by reflexivity.
  split; [exact H1|]. split; [exact H2|].
  exact (proj1 (proj2 (proj2 (proj2 (proj2 (proj2 (proj2
    (C4_reply_after_delete (Dashboard.render w_left) opened_closure
       alice_user alice_user
       [ChatInterface.imageMessage opened_closure photo 3] 1503 w_left H1 H2)))))))).
Defined.

(** ** The text reply, in general *)

Lemma chat_saveChatrooms dc rooms w :
  chat (Dashboard.saveChatrooms dc rooms w) = chat w.
Proof. unfold Dashboard.saveChatrooms. by destruct (dc_user dc). Qed.

Lemma chat_saveMessages (cc : ChatClosure) (l : list Message) (c : ChatState) (w : World) :
  chat w = Some c → mountId c = cc_mountId cc →
  chat (ChatInterface.saveMessages cc l w)
  = Some {| mountId := mountId c; ch_user := ch_user c; messages := l;
            inputValue := inputValue c; isTyping := isTyping c |}.
Proof.
  intros Hc Hm. unfold ChatInterface.saveMessages. cbn zeta.
  assert (H : chat (ChatInterface.setMessages (cc_mountId cc) (fun _ => l)
                      (set_localStorage
                         (<[messages_key (c_id (cc_chatroom cc)) := JMessages l]>
                            (localStorage w)) w))
              = Some {| mountId := mountId c; ch_user := ch_user c; messages := l;
                        inputValue := inputValue c; isTyping := isTyping c |}).
  { unfold ChatInterface.setMessages, ChatInterface.update. simpl.
    rewrite Hc. by rewrite decide_True. }
  destruct (last l) as [m|]; [|exact H].
  unfold Dashboard.onUpdateChatroom. by rewrite chat_saveChatrooms.
Qed.

(** [sendMessage] followed by its timeout, on the mounted view: the
    stored log ends with the user message and the timeout leaves it so;
    the list of the view ends with the user message and the reply. *)
Lemma sendMessage_then_reply (cc : ChatClosure) (u : User) (c : ChatState)
    (now1 now2 : Z) (w : World) :
  cc_user cc = Some u →
  Js.truthy (Js.trim (cc_inputValue cc)) = true →
  chat w = Some c → mountId c = cc_mountId cc →
  let sent := ChatInterface.sendMessage cc now1 w in
  let replied := ChatInterface.fire (AiReply cc) now2 sent.1 in
  let mine := ChatInterface.userMessage cc now1 in
  let answer := ChatInterface.aiMessage cc now2 in
  sent.2 = [AiReply cc]
  ∧ localStorage sent.1 !! messages_key (c_id (cc_chatroom cc))
    = Some (JMessages (cc_messages cc ++ [mine]))
  ∧ localStorage replied.1 = localStorage sent.1
  ∧ (messages <$> chat replied.1) = Some (cc_messages cc ++ [mine; answer])
  ∧ m_isUser answer = false.
Proof.
  intros Hu Ht Hc Hm. cbn zeta.
  unfold ChatInterface.sendMessage. rewrite Hu, Ht. cbn [fst snd].
  split; [done|].
  unfold ChatInterface.setIsTyping, ChatInterface.setInputValue.
  split; [rewrite !localStorage_update; apply saveMessages_stores|].
  split; [apply fire_AiReply_frame|].
  pose proof (chat_saveMessages cc
                (cc_messages cc ++ [ChatInterface.userMessage cc now1]) c w Hc Hm)
    as Hs.
  cbn [ChatInterface.fire fst].
  unfold ChatInterface.setIsTyping, ChatInterface.setMessages, ChatInterface.update.
  rewrite Hs.
  do 4 (cbn [chat mountId]; rewrite decide_True by exact Hm).
  simpl. split; [|done]. by rewrite <- app_assoc.
Qed.

(** ** The session record under the chat handlers *)

Lemma session_record_saveChatrooms dc rooms w :
  session_record (Dashboard.saveChatrooms dc rooms w) = session_record w.
Proof.
  unfold Dashboard.saveChatrooms, session_record.
  destruct (dc_user dc) as [u|]; [|done]. simpl.
  apply lookup_insert_ne, chatrooms_key_ne_otpUser.
Qed.

Lemma session_record_update mount f w :
  session_record (ChatInterface.update mount f w) = session_record w.
Proof. unfold session_record. by rewrite localStorage_update. Qed.

Lemma session_record_setSelectedChatroom sel w :
  session_record (Dashboard.setSelectedChatroom sel w) = session_record w.
Proof. unfold session_record. by rewrite localStorage_setSelectedChatroom. Qed.

Lemma session_record_saveMessages cc l w :
  session_record (ChatInterface.saveMessages cc l w) = session_record w.
Proof.
  unfold ChatInterface.saveMessages. cbn zeta.
  assert (H : session_record
            (ChatInterface.setMessages (cc_mountId cc) (fun _ => l)
               (set_localStorage
                  (<[messages_key (c_id (cc_chatroom cc)) := JMessages l]>
                     (localStorage w)) w)) = session_record w).
  { unfold ChatInterface.setMessages. rewrite session_record_update.
    unfold session_record. simpl.
    apply lookup_insert_ne, messages_key_ne_otpUser. }
  destruct (last l) as [m|]; [|exact H].
  unfold Dashboard.onUpdateChatroom. by rewrite session_record_saveChatrooms.
Qed.

Lemma session_record_handle w e : session_record (handle w e) = session_record w.
Proof.
  destruct e as [dc now|dc rid|room| |cc now|p now]; cbn [handle].
  - unfold Dashboard.createChatroom.
    destruct (Js.truthy _), (dc_user dc); try done.
    rewrite session_record_setSelectedChatroom.
    unfold Dashboard.closeCreateForm.
    etrans; [|apply (session_record_saveChatrooms dc)]. done.
  - unfold Dashboard.deleteChatroom. cbn zeta.
    set (w1 := Dashboard.saveChatrooms dc _ w).
    assert (H1 : session_record w1 = session_record w)
      by apply session_record_saveChatrooms.
    set (w2 := match dc_selectedChatroom dc with Some _ => _ | None => _ end).
    assert (H2 : session_record w2 = session_record w).
    { subst w2. destruct (dc_selectedChatroom dc) as [sel|]; [|done].
      case_decide; [|done]. by rewrite session_record_setSelectedChatroom. }
    destruct (dc_user dc); [|done].
    unfold session_record in *. simpl.
    rewrite lookup_delete_ne by apply messages_key_ne_otpUser. done.
  - apply session_record_setSelectedChatroom.
  - apply session_record_setSelectedChatroom.
  - unfold ChatInterface.sendMessage.
    destruct (Js.truthy _), (cc_user cc); try done. cbn [fst].
    unfold ChatInterface.setIsTyping, ChatInterface.setInputValue.
    rewrite !session_record_update. apply session_record_saveMessages.
  - destruct p as [cc|cc file|cc nm]; cbn [ChatInterface.fire fst];
      unfold ChatInterface.setIsTyping, ChatInterface.setMessages;
      rewrite ?session_record_update; try done;
      apply session_record_saveMessages.
Qed.

(** No handler of the chat part writes the session record: whatever
    sequence of them runs, a restore finds the session it would have
    found before. *)
Lemma session_record_run (es : list Event) (w : World) :
  session_record (run es w) = session_record w.
Proof.
  unfold run. revert w. induction es as [|e es IH]; intros w; simpl; [done|].
  rewrite IH. apply session_record_handle.
Qed.

Lemma checkAuthState_run (es : list Event) (w : World) (now : Z) :
  useOTPAuth.checkAuthState (localStorage (run es w)) now
  = useOTPAuth.checkAuthState (localStorage w) now.
Proof.
  pose proof (session_record_run es w) as H. unfold session_record in H.
  unfold useOTPAuth.checkAuthState. by rewrite H.
Qed.

(** ** The user of a session *)

(** C7, as stated — the user restored from a persisted session is the
    user set at login, field for field.  It fails: [createdAt] is not
    persisted and is set again from the clock at every restore. *)
Lemma C7_restore_changes_createdAt :
  ¬ (∀ (u : Identity) (t1 t2 : Z) (ls : LocalStorage),
       user (useOTPAuth.checkAuthState (useOTPAuth.login u t1 ls).1 t2)
       = user (useOTPAuth.login u t1 ls).2).
Proof.
  intros H. specialize (H alice 1%Z 2%Z ∅). vm_compute in H. discriminate H.
Qed.

(** C7, amended — [login] stores the identity [{id, phone, countryCode}]
    and sets the user to that identity stamped with the login time; no
    handler of the chat part changes the stored identity; a restore,
    also after any sequence of those handlers, yields a user with the
    same [id], [phone] and [countryCode], stamped with the time of the
    restore. *)
Theorem C7_restore_keeps_identity (u : Identity) (t1 t2 : Z) (ls : LocalStorage) :
  let '(ls1, st1) := useOTPAuth.login u t1 ls in
  let st2 := useOTPAuth.checkAuthState ls1 t2 in
  ls1 !! "otpUser" = Some (JIdentity u)
  ∧ user st1 = Some (withTimestamp u t1)
  ∧ user st2 = Some (withTimestamp u t2)
  ∧ isAuthenticated st2 = true
  ∧ (∃ a b, user st1 = Some a ∧ user st2 = Some b
       ∧ u_id b = u_id a ∧ u_phone b = u_phone a
       ∧ u_countryCode b = u_countryCode a
       ∧ u_createdAt a = t1 ∧ u_createdAt b = t2)
  ∧ (∀ (es : list Event) (d : DashboardState) (c : option ChatState) (n : nat),
       useOTPAuth.checkAuthState
         (localStorage (run es {| localStorage := ls1; dashboard := d;
                                  chat := c; mounts := n |})) t2 = st2).
Proof.
  unfold useOTPAuth.login. cbn zeta.
  assert (Hst : useOTPAuth.checkAuthState (<["otpUser" := JIdentity u]> ls) t2
                = {| user := Some (withTimestamp u t2); a_isLoading := false;
                     isAuthenticated := true |}).
  { unfold useOTPAuth.checkAuthState. by rewrite lookup_insert_eq. }
  rewrite Hst. simpl.
  split; [apply lookup_insert_eq|].
  do 3 (split; [reflexivity|]).
  split.
  - exists (withTimestamp u t1), (withTimestamp u t2). repeat split.
  - intros es d c n. rewrite checkAuthState_run. exact Hst.
Qed.

(** * Further properties of the components *)

(** ** The resend cooldown *)

Lemma form_handle_cooldown (f : Form) (e : FormEvent) :
  canResend (f_state f) = bool_decide (timeLeft (f_state f) ≤ 0)%Z →
  (timeLeft (f_state f) ≤ 60)%Z →
  canResend (f_state (form_handle f e))
  = bool_decide (timeLeft (f_state (form_handle f e)) ≤ 0)%Z
  ∧ (timeLeft (f_state (form_handle f e)) ≤ 60)%Z.
Proof.
  intros Hc Hle. destruct f as [st ss ls]. simpl in Hc, Hle.
  destruct e as [v|v|v| |sc r| |vc now| | |]; simpl; try done.
  - unfold OTPAuth.sendOTP. by destruct (negb _).
  - unfold OTPAuth.verifyOTP. by destruct (_ || _).
  - unfold OTPAuth.verifyOTP_timeout. cbn zeta. by destruct (decide _).
  - unfold OTPAuth.resendOTP. destruct (canResend st) eqn:E;
      [|simpl; by rewrite E].
    unfold OTPAuth.sendOTP. simpl. destruct (negb _); simpl; by rewrite ?E.
  - split; [|lia]. apply bool_decide_ext. lia.
Qed.

(** X1 — whatever happens to the form of [OTPAuth] from the moment it
    is mounted (typing, the buttons, their timeouts in any order, the
    interval), [canResend] is true exactly when [timeLeft] is not
    positive, and [timeLeft] never exceeds 60: the countdown text and
    the resend button are never shown together, and one of them is
    always there. *)
Theorem X1_cooldown_invariant (es : list FormEvent)
    (ss : SessionStorage) (ls : LocalStorage) :
  let st := f_state (form_run es (form_start ss ls)) in
  canResend st = bool_decide (timeLeft st ≤ 0)%Z
  ∧ (timeLeft st ≤ 60)%Z
  ∧ OTPAuth.showsResend st = negb (OTPAuth.showsCountdown st).
Proof.
  cbn zeta.
  assert (H : ∀ f,
    canResend (f_state f) = bool_decide (timeLeft (f_state f) ≤ 0)%Z →
    (timeLeft (f_state f) ≤ 60)%Z →
    canResend (f_state (form_run es f))
    = bool_decide (timeLeft (f_state (form_run es f)) ≤ 0)%Z
    ∧ (timeLeft (f_state (form_run es f)) ≤ 60)%Z).
  { unfold form_run. induction es as [|e es IH]; intros f Hc Hle; [done|].
    cbn [foldl]. destruct (form_handle_cooldown f e Hc Hle). by apply IH. }
  destruct (H (form_start ss ls)) as [Hc Hle]; [done|done|].
  split; [exact Hc|]. split; [exact Hle|].
  unfold OTPAuth.showsResend, OTPAuth.showsCountdown. rewrite Hc.
  repeat case_bool_decide; (done || lia).
Qed.

Lemma elapse_spec (n : nat) (st : OTPState) :
  (0 ≤ timeLeft st)%Z →
  canResend st = bool_decide (timeLeft st ≤ 0)%Z →
  timeLeft (OTPAuth.elapse n st) = Z.max 0 (timeLeft st - Z.of_nat n)
  ∧ canResend (OTPAuth.elapse n st) = bool_decide (timeLeft st ≤ Z.of_nat n)%Z
  ∧ step (OTPAuth.elapse n st) = step st
  ∧ phone (OTPAuth.elapse n st) = phone st
  ∧ countryCode (OTPAuth.elapse n st) = countryCode st
  ∧ otp (OTPAuth.elapse n st) = otp st
  ∧ isLoading (OTPAuth.elapse n st) = isLoading st
  ∧ error (OTPAuth.elapse n st) = error st.
Proof.
  revert st. induction n as [|n IH]; intros st H0 Hc.
  - simpl. rewrite Hc. split; [lia|]. split; [|done].
    apply bool_decide_ext. lia.
  - cbn [OTPAuth.elapse]. unfold OTPAuth.interval.
    destruct (decide (0 < timeLeft st)%Z) as [Hpos|Hnpos].
    + destruct (IH (OTPAuth.tick st)) as (Ht & Hr & Hrest).
      { simpl. lia. }
      { simpl. apply bool_decide_ext. lia. }
      simpl in Ht, Hr, Hrest. rewrite Ht, Hr.
      split; [lia|]. split; [apply bool_decide_ext; lia|exact Hrest].
    + destruct (IH st H0 Hc) as (Ht & Hr & Hrest). rewrite Ht, Hr.
      split; [lia|]. split; [apply bool_decide_ext; lia|exact Hrest].
Qed.

(** X2 — after the timeout of [sendOTP] the countdown starts at 60 and
    loses one per second: after [n] seconds [timeLeft] is [60 - n], or 0
    once 60 seconds have passed, where it stays; [canResend] is false
    during the first 59 seconds and true from the 60th on; the step,
    the inputs and the error are not touched by the timer. *)
Theorem X2_countdown (sc : OTPAuth.SendClosure) (r : Q)
    (ss : SessionStorage) (prev : OTPState) (n : nat) :
  let sent := (OTPAuth.sendOTP_timeout sc r ss prev).2 in
  let st := OTPAuth.elapse n sent in
  timeLeft st = Z.max 0 (60 - Z.of_nat n)
  ∧ canResend st = bool_decide (60 ≤ n)%nat
  ∧ step st = otp_step
  ∧ phone st = phone prev ∧ otp st = otp prev ∧ error st = error prev.
Proof.
  cbn zeta.
  destruct (elapse_spec n (OTPAuth.sendOTP_timeout sc r ss prev).2)
    as (Ht & Hr & Hs & Hp & _ & Ho & _ & He); [simpl; lia|done|].
  simpl in *. rewrite Ht, Hr, Hs, Hp, Ho, He.
  repeat split. apply bool_decide_ext. lia.
Qed.

(** X3 — [resendOTP] checks [canResend] itself: during the first 59
    seconds of the countdown it changes nothing and sets no timeout;
    from the 60th second on, with a phone number in the form, it clears
    the code input and the error, and sets the timeout for the phone
    and country of the form, whose run stores a new code and starts the
    countdown at 60 again. *)
Theorem X3_resend_gate (sc : OTPAuth.SendClosure) (r r' : Q)
    (ss ss' : SessionStorage) (prev later : OTPState) (n : nat) :
  Js.trim (phone prev) ≠ "" →
  let st := OTPAuth.elapse n (OTPAuth.sendOTP_timeout sc r ss prev).2 in
  ((n < 60)%nat → OTPAuth.resendOTP st = (st, None))
  ∧ ((60 ≤ n)%nat →
       ∃ sc', (OTPAuth.resendOTP st).2 = Some sc'
         ∧ OTPAuth.s_phone sc' = phone prev
         ∧ OTPAuth.s_countryCode sc' = countryCode prev
         ∧ otp (OTPAuth.resendOTP st).1 = ""
         ∧ error (OTPAuth.resendOTP st).1 = None
         ∧ isLoading (OTPAuth.resendOTP st).1 = true
         ∧ step (OTPAuth.resendOTP st).1 = otp_step
         ∧ (OTPAuth.sendOTP_timeout sc' r' ss' later).1 !! "otp"
           = Some (OTPAuth.generateOTP r')
         ∧ timeLeft (OTPAuth.sendOTP_timeout sc' r' ss' later).2 = 60%Z
         ∧ canResend (OTPAuth.sendOTP_timeout sc' r' ss' later).2 = false).
Proof.
  intros Hphone. cbn zeta.
  destruct (elapse_spec n (OTPAuth.sendOTP_timeout sc r ss prev).2)
    as (Ht & Hr & Hs & Hp & Hcc & Ho & Hl & He); [simpl; lia|done|].
  set (st := OTPAuth.elapse n (OTPAuth.sendOTP_timeout sc r ss prev).2) in *.
  simpl in Ht, Hr, Hs, Hp, Hcc, Ho, Hl, He.
  split.
  - intros Hn. unfold OTPAuth.resendOTP. rewrite Hr.
    rewrite bool_decide_eq_false_2 by lia. done.
  - intros Hn. unfold OTPAuth.resendOTP. rewrite Hr.
    rewrite bool_decide_eq_true_2 by lia.
    unfold OTPAuth.sendOTP. cbn [phone countryCode]. rewrite Hp, Hcc.
    destruct (Js.truthy (Js.trim (phone prev))) eqn:E;
      [|by apply truthy_false in E].
    cbn [negb]. eexists. split; [reflexivity|]. simpl.
    repeat split; try done.
    by rewrite lookup_insert_ne, lookup_insert_eq.
Qed.

Lemma X3_resend_gate_witness :
  Js.trim (phone (at_otp "")) ≠ ""
  ∧ OTPAuth.resendOTP
      (OTPAuth.elapse 30
         (OTPAuth.sendOTP_timeout (OTPAuth.mkSendClosure "+1" "5551234") (1 # 2)
            ∅ (at_otp "")).2)
    = (OTPAuth.elapse 30
         (OTPAuth.sendOTP_timeout (OTPAuth.mkSendClosure "+1" "5551234") (1 # 2)
            ∅ (at_otp "")).2, None).
Proof.
  assert (H : Js.trim (phone (at_otp "")) ≠ "") by (vm_compute; discriminate).
  split; [exact H|].
  apply (X3_resend_gate (OTPAuth.mkSendClosure "+1" "5551234") (1 # 2) 0
           ∅ ∅ (at_otp "") (at_otp "") 30 H).
  lia.
Defined.

(** ** What the inputs of the form can hold *)

Lemma substring0_digits (n : nat) (s : string) :
  Js.all_digits s = true → Js.all_digits (Js.substring0 n s) = true.
Proof.
  unfold Js.substring0. revert n.
  induction s as [|c s IH]; intros [|n]; simpl; try done.
  intros [Hc Hs]%andb_true_iff. rewrite Hc. simpl. by apply IH.
Qed.

Lemma substring0_length (n : nat) (s : string) :
  (String.length (Js.substring0 n s) ≤ n)%nat.
Proof.
  unfold Js.substring0. revert n.
  induction s as [|c s IH]; intros [|n]; simpl; try lia.
  specialize (IH n). lia.
Qed.

Lemma form_handle_inputs (f : Form) (e : FormEvent) :
  Js.all_digits (phone (f_state f)) = true →
  Js.all_digits (otp (f_state f)) = true →
  (String.length (otp (f_state f)) ≤ 6)%nat →
  Js.all_digits (phone (f_state (form_handle f e))) = true
  ∧ Js.all_digits (otp (f_state (form_handle f e))) = true
  ∧ (String.length (otp (f_state (form_handle f e))) ≤ 6)%nat.
Proof.
  intros Hp Ho Hl. destruct f as [st ss ls]. simpl in Hp, Ho, Hl.
  destruct e as [v|v|v| |sc r| |vc now| | |]; simpl; try done.
  - split; [apply strip_non_digits_all_digits|done].
  - split; [done|]. split; [|apply substring0_length].
    apply substring0_digits, strip_non_digits_all_digits.
  - unfold OTPAuth.sendOTP. by destruct (negb _).
  - unfold OTPAuth.verifyOTP. by destruct (_ || _).
  - unfold OTPAuth.verifyOTP_timeout. cbn zeta. by destruct (decide _).
  - unfold OTPAuth.resendOTP. destruct (canResend st); [|done].
    unfold OTPAuth.sendOTP. simpl. destruct (negb _); simpl;
      (split; [done|split; [done|lia]]).
  - split; [done|]. split; [done|lia].
Qed.

(** The inputs of a form that has been used: digits only, at most six
    of them in the code input. *)
Lemma form_inputs (es : list FormEvent) (ss : SessionStorage) (ls : LocalStorage) :
  let st := f_state (form_run es (form_start ss ls)) in
  Js.all_digits (phone st) = true
  ∧ Js.all_digits (otp st) = true
  ∧ (String.length (otp st) ≤ 6)%nat.
Proof.
  cbn zeta.
  assert (H : ∀ f,
    Js.all_digits (phone (f_state f)) = true →
    Js.all_digits (otp (f_state f)) = true →
    (String.length (otp (f_state f)) ≤ 6)%nat →
    Js.all_digits (phone (f_state (form_run es f))) = true
    ∧ Js.all_digits (otp (f_state (form_run es f))) = true
    ∧ (String.length (otp (f_state (form_run es f))) ≤ 6)%nat).
  { unfold form_run. induction es as [|e es IH]; intros f Hp Ho Hl; [done|].
    cbn [foldl]. destruct (form_handle_inputs f e Hp Ho Hl) as (?&?&?).
    by apply IH. }
  apply H; simpl; (done || lia).
Qed.

(** X4 — whatever happens to the form from the moment it is mounted,
    the phone it holds consists of digits only and the code it holds
    consists of at most six digits; hence [verifyOTP] sets its
    validation error exactly when fewer than six digits are typed, and
    never when the verify button is enabled; and [sendOTP] sets its
    validation error exactly when the phone is empty. *)
Theorem X4_form_inputs (es : list FormEvent)
    (ss : SessionStorage) (ls : LocalStorage) :
  let st := f_state (form_run es (form_start ss ls)) in
  Js.all_digits (phone st) = true
  ∧ Js.all_digits (otp st) = true
  ∧ (String.length (otp st) ≤ 6)%nat
  ∧ ((OTPAuth.verifyOTP st).2 = None ↔ (String.length (otp st) < 6)%nat)
  ∧ (OTPAuth.verifyDisabled st = false → is_Some (OTPAuth.verifyOTP st).2)
  ∧ ((OTPAuth.sendOTP st).2 = None ↔ phone st = "")
  ∧ (OTPAuth.sendDisabled st = false → is_Some (OTPAuth.sendOTP st).2).
Proof.
  cbn zeta. destruct (form_inputs es ss ls) as (Hp & Ho & Hl).
  set (st := f_state (form_run es (form_start ss ls))) in *.
  cbn zeta in Hp, Ho, Hl.
  split; [exact Hp|]. split; [exact Ho|]. split; [exact Hl|].
  assert (Hv : (OTPAuth.verifyOTP st).2 = None ↔ (String.length (otp st) < 6)%nat).
  { destruct (decide (String.length (otp st) = 6%nat)) as [H6|H6].
    - rewrite verifyOTP_six_digits by done. simpl. split; [done|lia].
    - unfold OTPAuth.verifyOTP.
      replace (String.length (otp st) =? 6)%nat with false
        by (symmetry; by apply Nat.eqb_neq).
      rewrite orb_true_r. simpl. split; [lia|done]. }
  assert (Hs : (OTPAuth.sendOTP st).2 = None ↔ phone st = "").
  { unfold OTPAuth.sendOTP. rewrite (trim_digits _ Hp).
    destruct (phone st); simpl; split; done. }
  split; [exact Hv|]. split.
  { unfold OTPAuth.verifyDisabled. intros [_ Hn]%orb_false_iff.
    apply negb_false_iff, Nat.eqb_eq in Hn.
    apply not_eq_None_Some. intros E. apply Hv in E. lia. }
  split; [exact Hs|].
  unfold OTPAuth.sendDisabled. rewrite (trim_digits _ Hp).
  intros [_ Hn]%orb_false_iff.
  apply not_eq_None_Some. intros E. apply Hs in E. rewrite E in Hn. done.
Qed.

(** X5 — a code can be used once: when the timeout of [verifyOTP] has
    accepted the stored code it has removed the challenge, and a later
    run of the timeout, with the same or any other input, creates no
    user, leaves both storages as they are, keeps the step and sets the
    error [Invalid OTP]. *)
Theorem X5_code_is_single_use (vc vc' : OTPAuth.VerifyClosure) (now now' : Z)
    (ss : SessionStorage) (ls : LocalStorage) (prev prev' : OTPState) :
  ss !! "otp" = Some (OTPAuth.v_otp vc) →
  let first := OTPAuth.verifyOTP_timeout vc now ss ls prev in
  let second := OTPAuth.verifyOTP_timeout vc' now' first.1.1.1 first.1.1.2 prev' in
  is_Some first.2
  ∧ step first.1.2 = verified_step
  ∧ first.1.1.1 !! "otp" = None
  ∧ second.2 = None
  ∧ second.1.1.1 = first.1.1.1
  ∧ second.1.1.2 = first.1.1.2
  ∧ step second.1.2 = step prev'
  ∧ error second.1.2 = Some "Invalid OTP. Please try again.".
Proof.
  intros Hss. cbn zeta.
  assert (Hfirst : OTPAuth.verifyOTP_timeout vc now ss ls prev
    = (delete "otpPhone" (delete "otp" ss),
       <["otpUser" := JIdentity {| i_id := "user_" +:+ Js.toString now;
                                   i_phone := OTPAuth.v_phone vc;
                                   i_countryCode := OTPAuth.v_countryCode vc |}]> ls,
       {| step := verified_step; phone := phone prev;
          countryCode := countryCode prev; otp := otp prev;
          isLoading := false; error := error prev;
          timeLeft := timeLeft prev; canResend := canResend prev |},
       Some {| i_id := "user_" +:+ Js.toString now;
               i_phone := OTPAuth.v_phone vc;
               i_countryCode := OTPAuth.v_countryCode vc |})).
  { unfold OTPAuth.verifyOTP_timeout. cbn zeta. rewrite Hss.
    by rewrite decide_True. }
  rewrite Hfirst. cbn [fst snd].
  assert (Hgone : delete "otpPhone" (delete "otp" ss) !! "otp" = None).
  { rewrite lookup_delete_ne by done. apply lookup_delete_eq. }
  split; [by eexists|]. split; [done|]. split; [exact Hgone|].
  unfold OTPAuth.verifyOTP_timeout. cbn zeta. rewrite Hgone.
  rewrite decide_False by done. done.
Qed.

Lemma X5_code_is_single_use_witness :
  challenge !! "otp" = Some "123456"
  ∧ (OTPAuth.verifyOTP_timeout
       (OTPAuth.mkVerifyClosure "123456" "5551234" "+1") 9
       (OTPAuth.verifyOTP_timeout
          (OTPAuth.mkVerifyClosure "123456" "5551234" "+1") 7
          challenge ∅ (at_otp "123456")).1.1.1
       (OTPAuth.verifyOTP_timeout
          (OTPAuth.mkVerifyClosure "123456" "5551234" "+1") 7
          challenge ∅ (at_otp "123456")).1.1.2
       (at_otp "123456")).2 = None.
Proof.
  assert (H : challenge !! "otp" = Some "123456") by (vm_compute; reflexivity).
  split; [exact H|].
  exact (proj1 (proj2 (proj2 (proj2
    (X5_code_is_single_use
       (OTPAuth.mkVerifyClosure "123456" "5551234" "+1")
       (OTPAuth.mkVerifyClosure "123456" "5551234" "+1") 7 9
       challenge ∅ (at_otp "123456") (at_otp "123456") H))))).
Defined.

(** ** The countdown text *)

Lemma length_app (s t : string) :
  String.length (s +:+ t) = (String.length s + String.length t)%nat.
Proof.
  induction s as [|c s IH]; [done|].
  cbv [String.append]. fold String.append. simpl. by rewrite IH.
Qed.

Lemma app_inj_suffix_length (s1 s2 t1 t2 : string) :
  s1 +:+ t1 = s2 +:+ t2 → String.length t1 = String.length t2 →
  s1 = s2 ∧ t1 = t2.
Proof.
  revert s2. induction s1 as [|c s1 IH]; intros [|c2 s2] H Hl.
  - done.
  - exfalso. apply (f_equal String.length) in H.
    rewrite (length_app (String c2 s2)) in H. simpl in H.
    change ("" +:+ t1) with t1 in H. lia.
  - exfalso. apply (f_equal String.length) in H.
    rewrite (length_app (String c s1)) in H. simpl in H.
    change ("" +:+ t2) with t2 in H. lia.
  - cbv [String.append] in H. fold String.append in H.
    injection H as -> H. destruct (IH s2 H Hl) as [-> ->]. done.
Qed.

Lemma padStart_two_digits (x : Z) :
  (0 ≤ x < 60)%Z → Js.padStart 2 "0" (Js.toString x) = two_digits x.
Proof.
  intros Hx.
  assert (H : ∃ k : nat, (k < 60)%nat ∧ x = Z.of_nat k).
  { exists (Z.to_nat x). lia. }
  destruct H as (k & Hk & ->). clear Hx.
  do 60 (destruct k as [|k]; [vm_compute; reflexivity|]). lia.
Qed.

Lemma toString_one_digit (x : Z) :
  (0 ≤ x < 10)%Z → String.length (Js.toString x) = 1%nat.
Proof.
  intros Hx.
  assert (H : ∃ k : nat, (k < 10)%nat ∧ x = Z.of_nat k).
  { exists (Z.to_nat x). lia. }
  destruct H as (k & Hk & ->). clear Hx.
  do 10 (destruct k as [|k]; [vm_compute; reflexivity|]). lia.
Qed.

Lemma two_digits_inj (x y : Z) :
  (0 ≤ x < 60)%Z → (0 ≤ y < 60)%Z → two_digits x = two_digits y → x = y.
Proof.
  intros Hx Hy [= H1 H2].
  apply pretty_N_char_inj in H1; [|div_lia..].
  apply pretty_N_char_inj in H2; [|div_lia..].
  div_lia.
Qed.

Lemma formatTime_shape (s : Z) :
  (0 ≤ s)%Z →
  OTPAuth.formatTime s = Js.toString (s / 60) +:+ ":" +:+ two_digits (s mod 60).
Proof.
  intros Hs. unfold OTPAuth.formatTime. cbn zeta.
  rewrite Z.rem_mod_nonneg by lia.
  rewrite padStart_two_digits; [done|]. apply Z.mod_pos_bound. lia.
Qed.

(** X6 — [formatTime] of a number of seconds that is not negative is
    the number of whole minutes, a colon, and the remaining seconds as
    exactly two digits; two different numbers of seconds never give the
    same text; below ten minutes, so for every value of the countdown,
    the text has four characters. *)
Theorem X6_formatTime (s1 s2 : Z) :
  (0 ≤ s1)%Z → (0 ≤ s2)%Z →
  OTPAuth.formatTime s1
  = Js.toString (s1 / 60) +:+ ":" +:+ two_digits (s1 mod 60)
  ∧ (OTPAuth.formatTime s1 = OTPAuth.formatTime s2 → s1 = s2)
  ∧ ((s1 < 600)%Z → String.length (OTPAuth.formatTime s1) = 4%nat).
Proof.
  intros H1 H2. rewrite !formatTime_shape by done.
  split; [done|]. split.
  - intros H.
    apply app_inj_suffix_length in H as [Hm Hd]; [|done].
    apply (inj pretty) in Hm. injection Hd as Hd1 Hd0.
    assert (s1 mod 60 = s2 mod 60)%Z.
    { apply two_digits_inj; [apply Z.mod_pos_bound; lia..|].
      unfold two_digits. by rewrite Hd1, Hd0. }
    rewrite (Z.div_mod s1 60), (Z.div_mod s2 60) by lia. congruence.
  - intros Hlt. rewrite length_app, toString_one_digit; [done|].
    split; [apply Z.div_pos; lia|apply Z.div_lt_upper_bound; lia].
Qed.

Lemma X6_formatTime_witness :
  (0 ≤ 60)%Z ∧ (0 ≤ 5)%Z
  ∧ OTPAuth.formatTime 60 = "1:00"
  ∧ String.length (OTPAuth.formatTime 60) = 4%nat.
Proof.
  assert (H1 : (0 ≤ 60)%Z) by lia. assert (H2 : (0 ≤ 5)%Z) by lia.
  split; [exact H1|]. split; [exact H2|].
  destruct (X6_formatTime 60 5 H1 H2) as (Hs & _ & Hl).
  split; [rewrite Hs; vm_compute; reflexivity|apply Hl; lia].
Defined.

(** ** The search of the chatroom list *)

Lemma prefix_empty (s : string) : String.prefix "" s = true.
Proof. by destruct s. Qed.

Lemma prefix_refl (s : string) : String.prefix s s = true.
Proof.
  induction s as [|c s IH]; [done|]. simpl.
  by destruct (Ascii.ascii_dec c c).
Qed.

Lemma includes_empty (s : string) : Js.includes "" s = true.
Proof. destruct s; simpl; by rewrite ?prefix_empty. Qed.

Lemma includes_refl (s : string) : Js.includes s s = true.
Proof. destruct s; cbn [Js.includes]; by rewrite prefix_refl. Qed.

Lemma prefix_toLowerCase (q s : string) :
  String.prefix q s = true →
  String.prefix (Js.toLowerCase q) (Js.toLowerCase s) = true.
Proof.
  revert q. induction s as [|c s IH]; intros [|d q]; simpl; try done.
  destruct (Ascii.ascii_dec d c) as [->|]; [|done].
  intros H. destruct (Ascii.ascii_dec _ _); [by apply IH|done].
Qed.

Lemma includes_toLowerCase (q s : string) :
  Js.includes q s = true →
  Js.includes (Js.toLowerCase q) (Js.toLowerCase s) = true.
Proof.
  induction s as [|c s IH]; cbn [Js.includes].
  - rewrite orb_false_r. intros H. apply prefix_toLowerCase in H.
    change (Js.toLowerCase "") with "" in *. cbn [Js.includes].
    by rewrite H.
  - intros [H|H]%orb_true_iff;
      change (Js.toLowerCase (String c s))
        with (String (Js.toLowerCase_char c) (Js.toLowerCase s));
      cbn [Js.includes]; apply orb_true_iff.
    + left. by apply (prefix_toLowerCase q (String c s)).
    + right. by apply IH.
Qed.

Lemma toLowerCase_char_idemp (c : ascii) :
  Js.toLowerCase_char (Js.toLowerCase_char c) = Js.toLowerCase_char c.
Proof. by destruct c as [[] [] [] [] [] [] [] []]. Qed.

Lemma toLowerCase_idemp (s : string) :
  Js.toLowerCase (Js.toLowerCase s) = Js.toLowerCase s.
Proof.
  induction s as [|c s IH]; simpl; [done|].
  by rewrite toLowerCase_char_idemp, IH.
Qed.

(** X7 — the search of the dashboard: the empty query shows every
    chatroom; the result is always a sub-list of the chatrooms, in
    their order, and holds exactly the chatrooms whose lower-cased name
    contains the lower-cased query; the letter case of the query makes
    no difference; a chatroom whose name contains the query as typed is
    found, and so is every chatroom when its own name is the query. *)
Theorem X7_search (rooms : list Chatroom) (query : string) :
  Dashboard.filteredChatrooms rooms "" = rooms
  ∧ sublist (Dashboard.filteredChatrooms rooms query) rooms
  ∧ (∀ room, room ∈ Dashboard.filteredChatrooms rooms query ↔
       room ∈ rooms
       ∧ Js.includes (Js.toLowerCase query) (Js.toLowerCase (c_name room)) = true)
  ∧ Dashboard.filteredChatrooms rooms (Js.toLowerCase query)
    = Dashboard.filteredChatrooms rooms query
  ∧ (∀ room, room ∈ rooms → Js.includes query (c_name room) = true →
       room ∈ Dashboard.filteredChatrooms rooms query)
  ∧ (∀ room, room ∈ rooms →
       room ∈ Dashboard.filteredChatrooms rooms (c_name room)).
Proof.
  unfold Dashboard.filteredChatrooms.
  split.
  { induction rooms as [|r rooms IH]; [done|].
    rewrite filter_cons_True by apply includes_empty. by rewrite IH. }
  split; [apply sublist_filter|].
  split; [intros room; rewrite list_elem_of_filter; tauto|].
  split; [by rewrite toLowerCase_idemp|].
  split.
  - intros room Hin Hq. apply list_elem_of_filter.
    split; [by apply includes_toLowerCase|done].
  - intros room Hin. apply list_elem_of_filter.
    split; [apply includes_refl|done].
Qed.

(** ** Saving and loading *)

Lemma chatrooms_key_inj (a b : string) : chatrooms_key a = chatrooms_key b → a = b.
Proof. unfold chatrooms_key. apply (inj (String.app "chatrooms_")). Qed.

Lemma messages_key_inj (a b : string) : messages_key a = messages_key b → a = b.
Proof. unfold messages_key. apply (inj (String.app "messages_")). Qed.

(** X8 — the chatroom list survives a restart and is private to its
    user: what [saveChatrooms] stores for a signed-in user is what the
    load effect of a freshly mounted dashboard reads back, whatever the
    list, when the user of that dashboard has the same id (the restored
    session has another [createdAt]); the key of a user with another id
    and every message log are left as they were. *)
Theorem X8_chatrooms_round_trip (dc : DashClosure) (u u' : User)
    (rooms : list Chatroom) (w fresh : World) :
  dc_user dc = Some u →
  u_id u' = u_id u →
  localStorage fresh = localStorage (Dashboard.saveChatrooms dc rooms w) →
  dashboard fresh = Dashboard.initial (Some u') →
  (chatrooms ∘ dashboard <$> Dashboard.loadChatrooms fresh) = Some rooms
  ∧ chatrooms (dashboard (Dashboard.saveChatrooms dc rooms w)) = rooms
  ∧ (∀ other, other ≠ u_id u →
       localStorage (Dashboard.saveChatrooms dc rooms w) !! chatrooms_key other
       = localStorage w !! chatrooms_key other)
  ∧ (∀ rid, localStorage (Dashboard.saveChatrooms dc rooms w) !! messages_key rid
            = localStorage w !! messages_key rid).
Proof.
  intros Hu Hid Hls Hd.
  unfold Dashboard.loadChatrooms. rewrite Hd, Hls.
  unfold Dashboard.saveChatrooms. rewrite Hu. simpl. rewrite Hid.
  rewrite lookup_insert_eq. simpl.
  repeat split.
  - intros other Hne. apply lookup_insert_ne.
    intros E. by apply chatrooms_key_inj in E.
  - intros rid. apply lookup_insert_ne, chatrooms_key_ne_messages_key.
Qed.

Lemma X8_chatrooms_round_trip_witness :
  dc_user trip_dashboard = Some alice_user
  ∧ u_id (withTimestamp alice 50) = u_id alice_user
  ∧ (chatrooms ∘ dashboard <$>
       Dashboard.loadChatrooms
         (set_dashboard (Dashboard.initial (Some (withTimestamp alice 50)))
            (Dashboard.saveChatrooms trip_dashboard [trip] empty_world)))
    = Some [trip].
Proof.
  assert (H : dc_user trip_dashboard = Some alice_user) by reflexivity.
  assert (H' : u_id (withTimestamp alice 50) = u_id alice_user) by reflexivity.
  split; [exact H|]. split; [exact H'|].
  exact (proj1 (X8_chatrooms_round_trip trip_dashboard alice_user
                  (withTimestamp alice 50) [trip] empty_world
                  (set_dashboard (Dashboard.initial (Some (withTimestamp alice 50)))
                     (Dashboard.saveChatrooms trip_dashboard [trip] empty_world))
                  H H' eq_refl eq_refl)).
Defined.

(** X9 — the message log survives leaving the chat: the list given to
    [saveMessages], whatever it is, is the list a chat view of the same
    chatroom shows once the user has gone back to the list and opened
    the chatroom again; the logs of the other chatrooms are left as
    they were. *)
Theorem X9_messages_round_trip (cc : ChatClosure) (l : list Message)
    (room : Chatroom) (now : Z) (w : World) :
  c_id room = c_id (cc_chatroom cc) →
  let saved := ChatInterface.saveMessages cc l w in
  let reopened :=
    settle now (Dashboard.setSelectedChatroom (Some room) (Dashboard.onBack saved)) in
  (messages <$> chat reopened) = Some l
  ∧ (∀ other, other ≠ c_id (cc_chatroom cc) →
       localStorage saved !! messages_key other = localStorage w !! messages_key other).
Proof.
  intros Hid. cbn zeta.
  pose proof (saveMessages_stores cc l w) as Hst.
  set (saved := ChatInterface.saveMessages cc l w) in *.
  split.
  - unfold settle, ChatInterface.render, Dashboard.onBack,
      Dashboard.setSelectedChatroom. simpl.
    unfold ChatInterface.mountEffects. simpl.
    rewrite Hid, Hst. simpl.
    unfold ChatInterface.setMessages, ChatInterface.update. simpl.
    rewrite decide_True by done. simpl. by rewrite decide_True.
  - intros other Hne. subst saved. unfold ChatInterface.saveMessages. cbn zeta.
    assert (Hk : messages_key (c_id (cc_chatroom cc)) ≠ messages_key other).
    { intros E. apply messages_key_inj in E. congruence. }
    destruct (last l) as [m|].
    + unfold Dashboard.onUpdateChatroom, Dashboard.saveChatrooms.
      destruct (dc_user _) as [u|]; simpl;
        unfold ChatInterface.setMessages; rewrite localStorage_update; simpl.
      * rewrite lookup_insert_ne by apply chatrooms_key_ne_messages_key.
        by rewrite lookup_insert_ne.
      * by rewrite lookup_insert_ne.
    + unfold ChatInterface.setMessages. rewrite localStorage_update. simpl.
      by rewrite lookup_insert_ne.
Qed.

Lemma X9_messages_round_trip_witness :
  c_id trip = c_id (cc_chatroom typed_closure)
  ∧ (messages <$>
       chat (settle 9
               (Dashboard.setSelectedChatroom (Some trip)
                  (Dashboard.onBack
                     (ChatInterface.saveMessages typed_closure [hello; reply] w_typed)))))
    = Some [hello; reply].
Proof.
  assert (H : c_id trip = c_id (cc_chatroom typed_closure)) by reflexivity.
  split; [exact H|].
  exact (proj1 (X9_messages_round_trip typed_closure [hello; reply] trip 9 w_typed H)).
Defined.

(** ** The chatroom list under its handlers *)

Lemma filter_all {A} (P : A → Prop) `{!∀ x, Decision (P x)} (l : list A) :
  Forall P l → filter P l = l.
Proof.
  induction 1 as [|x l Hx Hl IH]; [done|].
  by rewrite filter_cons_True, IH.
Qed.

(** X10 — [onUpdateChatroom] only ever replaces records in place: the
    list it stores has the ids of the list of its closure, in the same
    order; when no record has the id of the chatroom it is given, the
    list is the one of its closure, so that a chatroom is never added
    by an update; the stored list is the list of the state; and without
    a signed-in user it does nothing. *)
Theorem X10_update_keeps_ids (dc : DashClosure) (u : User)
    (updatedRoom : Chatroom) (w : World) :
  dc_user dc = Some u →
  let w' := Dashboard.onUpdateChatroom dc updatedRoom w in
  c_id <$> chatrooms (dashboard w') = c_id <$> dc_chatrooms dc
  ∧ (c_id updatedRoom ∉ c_id <$> dc_chatrooms dc →
       chatrooms (dashboard w') = dc_chatrooms dc)
  ∧ localStorage w' !! chatrooms_key (u_id u)
    = Some (JChatrooms (chatrooms (dashboard w')))
  ∧ (∀ none, dc_user none = None →
       Dashboard.onUpdateChatroom none updatedRoom w = w).
Proof.
  intros Hu. cbn zeta.
  unfold Dashboard.onUpdateChatroom, Dashboard.saveChatrooms. rewrite Hu. simpl.
  split.
  { rewrite <- list_fmap_compose. apply list_fmap_ext.
    intros i r _. simpl. by case_decide. }
  split.
  { intros Hnot. induction (dc_chatrooms dc) as [|r rooms IH]; [done|].
    rewrite fmap_cons in Hnot. apply not_elem_of_cons in Hnot as [Hne Hrest].
    rewrite fmap_cons, decide_False by done. by rewrite IH. }
  split; [apply lookup_insert_eq|].
  intros none Hn. by rewrite Hn.
Qed.

Lemma X10_update_keeps_ids_witness :
  dc_user trip_dashboard = Some alice_user
  ∧ c_id <$> chatrooms (dashboard
               (Dashboard.onUpdateChatroom trip_dashboard (trip_with hello) w_typed))
    = c_id <$> dc_chatrooms trip_dashboard.
Proof.
  assert (H : dc_user trip_dashboard = Some alice_user) by reflexivity.
  split; [exact H|].
  exact (proj1 (X10_update_keeps_ids trip_dashboard alice_user (trip_with hello)
                  w_typed H)).
Defined.

(** X11 — [deleteChatroom] with a signed-in user keeps exactly the
    chatrooms whose id is not the one given, in their order, in state
    and in storage; it removes the message log of that id and no other
    log; an id that no chatroom has leaves the list as it is. *)
Theorem X11_delete (dc : DashClosure) (u : User) (roomId : string) (w : World) :
  dc_user dc = Some u →
  let w' := Dashboard.deleteChatroom dc roomId w in
  (∀ r, r ∈ chatrooms (dashboard w') ↔ r ∈ dc_chatrooms dc ∧ c_id r ≠ roomId)
  ∧ sublist (chatrooms (dashboard w')) (dc_chatrooms dc)
  ∧ (roomId ∉ c_id <$> dc_chatrooms dc →
       chatrooms (dashboard w') = dc_chatrooms dc)
  ∧ localStorage w' !! chatrooms_key (u_id u)
    = Some (JChatrooms (chatrooms (dashboard w')))
  ∧ localStorage w' !! messages_key roomId = None
  ∧ (∀ other, other ≠ roomId →
       localStorage w' !! messages_key other = localStorage w !! messages_key other).
Proof.
  intros Hu. cbn zeta.
  destruct (deleteChatroom_spec dc u roomId w Hu) as [Hls Hd].
  cbn zeta in Hls, Hd. rewrite Hls, Hd.
  split; [intros r; rewrite list_elem_of_filter; tauto|].
  split; [apply sublist_filter|].
  split.
  { intros Hnot. apply filter_all, Forall_forall. intros r Hr E.
    apply Hnot, list_elem_of_fmap. by exists r. }
  split.
  { rewrite lookup_delete_ne by (apply not_eq_sym, chatrooms_key_ne_messages_key).
    apply lookup_insert_eq. }
  split; [apply lookup_delete_eq|].
  intros other Hne. rewrite lookup_delete_ne.
  - apply lookup_insert_ne, chatrooms_key_ne_messages_key.
  - intros E. by apply messages_key_inj in E.
Qed.

Lemma X11_delete_witness :
  dc_user trip_dashboard = Some alice_user
  ∧ localStorage (Dashboard.deleteChatroom trip_dashboard "room_2" w_typed)
      !! messages_key "room_2" = None.
Proof.
  assert (H : dc_user trip_dashboard = Some alice_user) by reflexivity.
  split; [exact H|].
  exact (proj1 (proj2 (proj2 (proj2 (proj2
    (X11_delete trip_dashboard alice_user "room_2" w_typed H)))))).
Defined.

(** X12 — creating a chatroom from the list, going back to the list and
    deleting the new chatroom there gives back the list: with the list
    view on screen, a signed-in user, a name in the form that is not
    blank and a clock reading whose id no chatroom of the list has,
    [createChatroom] puts the new chatroom in front and opens its chat
    view; after [onBack] and [deleteChatroom] of the new id, run in the
    render of the list view, the list in state and in storage is the
    list before, no message log is stored for the id, no chatroom is
    selected and the chat view is gone. *)
Theorem X12_create_then_delete (u : User) (now : Z) (w : World) :
  d_user (dashboard w) = Some u →
  selectedChatroom (dashboard w) = None →
  Js.trim (newChatroomName (dashboard w)) ≠ "" →
  room_id now ∉ c_id <$> chatrooms (dashboard w) →
  let room := Dashboard.newRoom (newChatroomName (dashboard w)) u now in
  let created := Dashboard.createChatroom (Dashboard.render w) now w in
  let listed := Dashboard.onBack created in
  let deleted :=
    Dashboard.deleteChatroom (Dashboard.render listed) (room_id now) listed in
  chatrooms (dashboard created) = room :: chatrooms (dashboard w)
  ∧ selectedChatroom (dashboard created) = Some room
  ∧ selectedChatroom (dashboard listed) = None
  ∧ chatrooms (dashboard listed) = room :: chatrooms (dashboard w)
  ∧ chatrooms (dashboard deleted) = chatrooms (dashboard w)
  ∧ localStorage deleted !! chatrooms_key (u_id u)
    = Some (JChatrooms (chatrooms (dashboard w)))
  ∧ localStorage deleted !! messages_key (room_id now) = None
  ∧ selectedChatroom (dashboard deleted) = None
  ∧ chat deleted = None.
Proof.
  intros Hu Hsel0 Hname Hfresh. cbn zeta.
  destruct (createChatroom_named (Dashboard.render w) u now w Hname Hu)
    as (Hrooms & Hls & Hsel & Hnm & Hcr).
  cbn zeta in Hrooms, Hls, Hsel.
  cbn [Dashboard.render dc_chatrooms dc_newChatroomName] in Hrooms, Hls, Hsel.
  set (room := Dashboard.newRoom (newChatroomName (dashboard w)) u now) in *.
  set (created := Dashboard.createChatroom (Dashboard.render w) now w) in *.
  assert (Hcu : d_user (dashboard created) = Some u).
  { subst created. unfold Dashboard.createChatroom.
    cbn [Dashboard.render dc_user dc_newChatroomName]. rewrite Hu.
    destruct (Js.truthy _); [|done].
    unfold Dashboard.setSelectedChatroom, Dashboard.closeCreateForm,
      Dashboard.saveChatrooms. cbn [Dashboard.render dc_user]. rewrite Hu.
    simpl. by destruct (chat w). }
  split; [exact Hrooms|]. split; [exact Hsel|].
  assert (Hfilter : filter (fun r => c_id r ≠ room_id now)
                      (room :: chatrooms (dashboard w))
                    = chatrooms (dashboard w)).
  { rewrite filter_cons_False by (intros E; by apply E).
    apply filter_all, Forall_forall. intros r Hr E.
    apply Hfresh, list_elem_of_fmap. by exists r. }
  unfold Dashboard.onBack.
  split; [done|]. split; [exact Hrooms|].
  unfold Dashboard.deleteChatroom.
  cbn [Dashboard.render Dashboard.setSelectedChatroom dashboard localStorage
       chat d_user chatrooms selectedChatroom dc_user dc_chatrooms
       dc_selectedChatroom].
  rewrite Hcu, Hrooms, Hfilter. cbn zeta.
  unfold Dashboard.saveChatrooms. cbn [dc_user].
  simpl.
  rewrite lookup_delete_ne by (apply not_eq_sym, chatrooms_key_ne_messages_key).
  rewrite lookup_insert_eq, lookup_delete_eq. done.
Qed.

Lemma X12_create_then_delete_witness :
  d_user (dashboard w_named) = Some alice_user
  ∧ selectedChatroom (dashboard w_named) = None
  ∧ Js.trim (newChatroomName (dashboard w_named)) ≠ ""
  ∧ (room_id 2 ∉ (c_id <$> chatrooms (dashboard w_named)))
  ∧ chatrooms (dashboard
      (Dashboard.deleteChatroom (Dashboard.render (Dashboard.onBack w_created))
         (room_id 2) (Dashboard.onBack w_created)))
    = chatrooms (dashboard w_named).
Proof.
  assert (H1 : d_user (dashboard w_named) = Some alice_user) by reflexivity.
  assert (H0 : selectedChatroom (dashboard w_named) = None) by reflexivity.
  assert (H2 : Js.trim (newChatroomName (dashboard w_named)) ≠ "")
    by (vm_compute; discriminate).
  assert (H3 : room_id 2 ∉ (c_id <$> chatrooms (dashboard w_named))).
  { simpl. apply not_elem_of_nil. }
  split; [exact H1|]. split; [exact H0|]. split; [exact H2|].
  split; [exact H3|].
  exact (proj1 (proj2 (proj2 (proj2 (proj2
    (X12_create_then_delete alice_user 2 w_named H1 H0 H2 H3)))))).
Defined.

Lemma chatrooms_create_back (u : User) (name : string) (now : Z) (w : World) :
  Js.trim name ≠ "" →
  chatrooms (dashboard
    (Dashboard.onBack
       (Dashboard.createChatroom
          {| dc_user := Some u; dc_chatrooms := chatrooms (dashboard w);
             dc_selectedChatroom := selectedChatroom (dashboard w);
             dc_newChatroomName := name |} now w)))
  = Dashboard.newRoom name u now :: chatrooms (dashboard w).
Proof.
  intros Hname. unfold Dashboard.onBack. rewrite chatrooms_setSelectedChatroom.
  by destruct (createChatroom_named
                 {| dc_user := Some u; dc_chatrooms := chatrooms (dashboard w);
                    dc_selectedChatroom := selectedChatroom (dashboard w);
                    dc_newChatroomName := name |} u now w Hname eq_refl)
    as (-> & _).
Qed.

(** X13 — chatrooms created one after the other from the list, with
    names that are not blank and at clock readings that differ from one
    another and from those of the chatrooms already there, are all in
    the list, the newest first and in front of the older ones, and no
    two chatrooms of the list have the same id. *)
Theorem X13_created_ids_distinct (u : User) (names : list (string * Z)) (w : World) :
  Forall (fun p => Js.trim p.1 ≠ "") names →
  NoDup names.*2 →
  (∀ t, t ∈ names.*2 → room_id t ∉ c_id <$> chatrooms (dashboard w)) →
  NoDup (c_id <$> chatrooms (dashboard w)) →
  chatrooms (dashboard (create_all u names w))
  = rev ((fun p => Dashboard.newRoom p.1 u p.2) <$> names) ++ chatrooms (dashboard w)
  ∧ NoDup (c_id <$> chatrooms (dashboard (create_all u names w))).
Proof.
  revert w. induction names as [|[name now] names IH]; intros w Hnames Hnd Hfresh Hids.
  - done.
  - cbn [create_all].
    apply Forall_cons in Hnames as [Hname Hnames]. simpl in Hname.
    rewrite fmap_cons in Hnd. apply NoDup_cons in Hnd as [Hnow Hnd].
    simpl in Hnow.
    set (w1 := Dashboard.onBack _).
    assert (Hw1 : chatrooms (dashboard w1)
                  = Dashboard.newRoom name u now :: chatrooms (dashboard w))
      by (by apply chatrooms_create_back).
    destruct (IH w1) as [Hl Hn].
    + exact Hnames.
    + exact Hnd.
    + intros t Ht. rewrite Hw1, fmap_cons. apply not_elem_of_cons. split.
      * simpl. intros E. apply room_id_inj in E. by subst.
      * apply Hfresh. rewrite fmap_cons. by right.
    + rewrite Hw1, fmap_cons. apply NoDup_cons. split; [|exact Hids].
      apply Hfresh. rewrite fmap_cons. by left.
    + split; [|exact Hn].
      rewrite Hl, Hw1, fmap_cons. simpl. by rewrite <- app_assoc.
Qed.

Lemma X13_created_ids_distinct_witness :
  Forall (fun p : string * Z => Js.trim p.1 ≠ "") [("Trip", 5%Z); (" Work ", 8%Z)]
  ∧ NoDup [("Trip", 5%Z); (" Work ", 8%Z)].*2
  ∧ c_id <$> chatrooms (dashboard
      (create_all alice_user [("Trip", 5%Z); (" Work ", 8%Z)] empty_world))
    = [room_id 8; room_id 5].
Proof.
  assert (H1 : Forall (fun p : string * Z => Js.trim p.1 ≠ "")
                 [("Trip", 5%Z); (" Work ", 8%Z)]).
  { repeat constructor; vm_compute; discriminate. }
  assert (H2 : NoDup [("Trip", 5%Z); (" Work ", 8%Z)].*2).
  { simpl. apply NoDup_cons. split; [|apply NoDup_singleton].
    by intros [=]%list_elem_of_singleton. }
  split; [exact H1|]. split; [exact H2|].
  destruct (X13_created_ids_distinct alice_user [("Trip", 5%Z); (" Work ", 8%Z)]
              empty_world H1 H2) as [Hl _].
  - intros t _. simpl. apply not_elem_of_nil.
  - simpl. constructor.
  - rewrite Hl. reflexivity.
Defined.

(** ** The preview *)

Lemma substring0_prefix (n : nat) (s : string) :
  String.prefix (Js.substring0 n s) s = true.
Proof.
  unfold Js.substring0. revert n.
  induction s as [|c s IH]; intros [|n]; simpl; try done.
  destruct (Ascii.ascii_dec c c); [apply IH|done].
Qed.

(** X14 — the preview that [saveMessages] gives the chatroom is the
    beginning of the content of the last message and has at most 100
    characters; it is the whole content when that has at most 100
    characters; every record of the stored list that has the id of the
    chatroom carries it. *)
Theorem X14_preview_bound (cc : ChatClosure) (u : User)
    (msgs : list Message) (m : Message) (w : World) :
  dc_user (cc_onUpdateChatroom cc) = Some u →
  let w' := ChatInterface.saveMessages cc (msgs ++ [m]) w in
  ∃ preview,
    (String.length preview ≤ 100)%nat
    ∧ String.prefix preview (m_content m) = true
    ∧ ((String.length (m_content m) ≤ 100)%nat → preview = m_content m)
    ∧ (∀ r, r ∈ chatrooms (dashboard w') → c_id r = c_id (cc_chatroom cc) →
         c_lastMessage r = Some preview
         ∧ c_lastMessageTime r = Some (m_timestamp m)).
Proof.
  intros Hu. cbn zeta. exists (Js.substring0 100 (m_content m)).
  split; [apply substring0_length|]. split; [apply substring0_prefix|].
  split; [apply substring0_short|].
  destruct (saveMessages_spec cc u msgs m w Hu) as [_ Hd]. cbn zeta in Hd.
  rewrite Hd. intros r [r0 [-> Hr0]]%list_elem_of_fmap.
  case_decide; [done|]. intros E. done.
Qed.

Lemma X14_preview_bound_witness :
  dc_user (cc_onUpdateChatroom typed_closure) = Some alice_user
  ∧ ∃ preview,
      (String.length preview ≤ 100)%nat
      ∧ String.prefix preview (m_content hello) = true.
Proof.
  assert (H : dc_user (cc_onUpdateChatroom typed_closure) = Some alice_user)
    by reflexivity.
  split; [exact H|].
  destruct (X14_preview_bound typed_closure alice_user [] hello w_typed H)
    as (p & Hl & Hp & _).
  exists p. split; [exact Hl|exact Hp].
Defined.

(** ** Two appends from one render *)

(** X15 — [saveMessages] replaces the stored log by the list built from
    the messages of its closure.  When a text message is sent and the
    reader of an image chosen in the same render finishes afterwards,
    the log stored by [sendMessage] ends with the text message, and the
    log stored when the image has been read is the list of the closure
    followed by the image message alone: the text message is no longer
    in the stored log, and the preview is that of the image message. *)
Theorem X15_second_append_overwrites (cc : ChatClosure) (u u' : User)
    (file : File) (now1 now2 : Z) (w : World) :
  cc_user cc = Some u →
  Js.truthy (Js.trim (cc_inputValue cc)) = true →
  dc_user (cc_onUpdateChatroom cc) = Some u' →
  let key := messages_key (c_id (cc_chatroom cc)) in
  let text := ChatInterface.userMessage cc now1 in
  let image := ChatInterface.imageMessage cc file now2 in
  let sent := (ChatInterface.sendMessage cc now1 w).1 in
  let loaded := ChatInterface.fire (ReaderLoad cc file) now2 sent in
  ChatInterface.handleImageUpload cc (Some file) = [ReaderLoad cc file]
  ∧ localStorage sent !! key = Some (JMessages (cc_messages cc ++ [text]))
  ∧ localStorage loaded.1 !! key = Some (JMessages (cc_messages cc ++ [image]))
  ∧ text ≠ image
  ∧ loaded.2 = [ImageAiReply cc (cc_messages cc ++ [image])]
  ∧ (∀ r, r ∈ chatrooms (dashboard loaded.1) → c_id r = c_id (cc_chatroom cc) →
       c_lastMessage r = Some (Js.substring0 100 (m_content image))).
Proof.
  intros Hu Ht Hd. cbn zeta.
  split; [unfold ChatInterface.handleImageUpload; by rewrite Hu|].
  split.
  { unfold ChatInterface.sendMessage. rewrite Hu, Ht. cbn [fst].
    unfold ChatInterface.setIsTyping, ChatInterface.setInputValue.
    rewrite !localStorage_update. apply saveMessages_stores. }
  cbn [ChatInterface.fire fst snd]. unfold ChatInterface.setIsTyping.
  rewrite localStorage_update, dashboard_update.
  split; [apply saveMessages_stores|].
  split; [by intros [=]|]. split; [done|].
  destruct (saveMessages_spec cc u' (cc_messages cc)
              (ChatInterface.imageMessage cc file now2)
              (ChatInterface.sendMessage cc now1 w).1 Hd) as [_ Hrooms].
  cbn zeta in Hrooms. rewrite Hrooms.
  intros r [r0 [-> Hr0]]%list_elem_of_fmap. by case_decide.
Qed.

Lemma X15_second_append_overwrites_witness :
  cc_user typed_closure = Some alice_user
  ∧ Js.truthy (Js.trim (cc_inputValue typed_closure)) = true
  ∧ dc_user (cc_onUpdateChatroom typed_closure) = Some alice_user
  ∧ localStorage
      (ChatInterface.fire (ReaderLoad typed_closure photo) 4
         (ChatInterface.sendMessage typed_closure 3 w_typed).1).1
      !! messages_key (c_id (cc_chatroom typed_closure))
    = Some (JMessages (cc_messages typed_closure
                       ++ [ChatInterface.imageMessage typed_closure photo 4])).
Proof.
  assert (H1 : cc_user typed_closure = Some alice_user) by reflexivity.
  assert (H2 : Js.truthy (Js.trim (cc_inputValue typed_closure)) = true)
    by (vm_compute; reflexivity).
  assert (H3 : dc_user (cc_onUpdateChatroom typed_closure) = Some alice_user)
    by reflexivity.
  split; [exact H1|]. split; [exact H2|]. split; [exact H3|].
  exact (proj1 (proj2 (proj2
    (X15_second_append_overwrites typed_closure alice_user alice_user photo 3 4
       w_typed H1 H2 H3)))).
Defined.

(** ** From the form to the dashboard *)

(** X16 — what [App] shows for the state of its own hook: the loading
    screen before the restore has run and never after it; after the
    restore the dashboard when storage holds the record of an identity,
    and also when it holds an array, which parses; the form when
    storage holds no record or the empty text; the dashboard after
    [login]; the form after the reload that the clearing [logout]
    makes, and after a restore on the storage that the short [logout]
    leaves; and for every state of the hook that is no longer loading
    and in which [isAuthenticated] says whether there is a user, the
    dashboard exactly when [isAuthenticated] is true. *)
Theorem X16_routing (ls : LocalStorage) (ss : SessionStorage) (now : Z) :
  App useOTPAuth.initial = LoadingScreen
  ∧ App (useOTPAuth.checkAuthState ls now) ≠ LoadingScreen
  ∧ (∀ u, ls !! "otpUser" = Some (JIdentity u) →
       App (useOTPAuth.checkAuthState ls now) = DashboardScreen)
  ∧ (∀ rooms, ls !! "otpUser" = Some (JChatrooms rooms) →
       App (useOTPAuth.checkAuthState ls now) = DashboardScreen)
  ∧ (∀ msgs, ls !! "otpUser" = Some (JMessages msgs) →
       App (useOTPAuth.checkAuthState ls now) = DashboardScreen)
  ∧ (ls !! "otpUser" = None ∨ ls !! "otpUser" = Some (Text "") →
       App (useOTPAuth.checkAuthState ls now) = OTPAuthScreen)
  ∧ (∀ u, App (useOTPAuth.login u now ls).2 = DashboardScreen)
  ∧ App (useOTPAuth.reload (useOTPAuth.logout ls ss).1.1 now) = OTPAuthScreen
  ∧ App (useOTPAuth_short.checkAuthState (useOTPAuth_short.logout ls ss).1.1 now)
    = OTPAuthScreen
  ∧ (∀ st, session_invariant st → a_isLoading st = false →
       (App st = DashboardScreen ↔ isAuthenticated st = true)).
Proof.
  split; [done|].
  split.
  { unfold useOTPAuth.checkAuthState.
    by destruct (ls !! "otpUser") as [[u|rooms|msgs|[|c s]]|]. }
  split; [intros u H; unfold useOTPAuth.checkAuthState; by rewrite H|].
  split; [intros u H; unfold useOTPAuth.checkAuthState; by rewrite H|].
  split; [intros u H; unfold useOTPAuth.checkAuthState; by rewrite H|].
  split; [intros [H|H]; unfold useOTPAuth.checkAuthState; by rewrite H|].
  split; [done|].
  split.
  { pose proof (logout_then_reload ls ss now) as H.
    destruct (useOTPAuth.logout ls ss) as [[ls' ss'] st].
    destruct H as (_&_&_&_&_&_&_&_&Hr&_). simpl. by rewrite Hr. }
  split.
  { unfold useOTPAuth_short.checkAuthState. rewrite checkAuthState_absent; [done|].
    simpl. apply lookup_delete_eq. }
  intros [usr loading auth] Hinv Hl. unfold session_invariant, has_user in Hinv.
  simpl in Hinv, Hl. subst. unfold App, has_user. simpl.
  destruct usr; simpl; split; done.
Qed.

(** X17 — a successful verification has already persisted the session:
    the timeout of [verifyOTP] stores the identity it hands to
    [onAuthenticated], with the phone and country the form held when
    the button was pressed and the id [user_<now>]; a restore on that
    storage, even before the callback has run, signs that user in; and
    the [login] the callback makes writes the same record again, leaves
    storage as it is and shows the dashboard. *)
Theorem X17_verified_session (vc : OTPAuth.VerifyClosure) (now later : Z)
    (ss : SessionStorage) (ls : LocalStorage) (prev : OTPState) :
  ss !! "otp" = Some (OTPAuth.v_otp vc) →
  let done := OTPAuth.verifyOTP_timeout vc now ss ls prev in
  let u := {| i_id := "user_" +:+ Js.toString now;
              i_phone := OTPAuth.v_phone vc;
              i_countryCode := OTPAuth.v_countryCode vc |} in
  done.2 = Some u
  ∧ user (useOTPAuth.checkAuthState done.1.1.2 later) = Some (withTimestamp u later)
  ∧ (useOTPAuth.login u later done.1.1.2).1 = done.1.1.2
  ∧ user (useOTPAuth.login u later done.1.1.2).2 = Some (withTimestamp u later)
  ∧ App (useOTPAuth.login u later done.1.1.2).2 = DashboardScreen
  ∧ (∀ k, k ≠ "otpUser" → done.1.1.2 !! k = ls !! k).
Proof.
  intros Hss. cbn zeta.
  unfold OTPAuth.verifyOTP_timeout. cbn zeta. rewrite Hss.
  rewrite decide_True by done. cbn [fst snd].
  split; [done|].
  split; [unfold useOTPAuth.checkAuthState; by rewrite lookup_insert_eq|].
  split; [unfold useOTPAuth.login; cbn [fst]; by rewrite insert_insert_eq|].
  split; [done|]. split; [done|].
  intros k Hk. by rewrite lookup_insert_ne.
Qed.

Lemma X17_verified_session_witness :
  challenge !! "otp" = Some "123456"
  ∧ (OTPAuth.verifyOTP_timeout
       (OTPAuth.mkVerifyClosure "123456" "5551234" "+1") 7 challenge ∅
       (at_otp "123456")).2
    = Some {| i_id := "user_" +:+ Js.toString 7; i_phone := "5551234";
              i_countryCode := "+1" |}.
Proof.
  assert (H : challenge !! "otp" = Some "123456") by (vm_compute; reflexivity).
  split; [exact H|].
  exact (proj1 (X17_verified_session
                  (OTPAuth.mkVerifyClosure "123456" "5551234" "+1") 7 9
                  challenge ∅ (at_otp "123456") H)).
Defined.

(** ** The life of the session record *)

(** X18 — the session record: a second [login] replaces the user of the
    first, in state and in storage, so that a restore yields the second
    user; [login] touches no other key; the clearing [logout] run a
    second time changes nothing; and [logout] keeps every key that
    neither is the session key nor starts with [chatrooms_] or
    [messages_]. *)
Theorem X18_session_record (u1 u2 : Identity) (t1 t2 t3 : Z)
    (ls : LocalStorage) (ss : SessionStorage) :
  let once := useOTPAuth.login u1 t1 ls in
  let twice := useOTPAuth.login u2 t2 once.1 in
  let out := useOTPAuth.logout ls ss in
  twice.1 = (useOTPAuth.login u2 t2 ls).1
  ∧ user twice.2 = Some (withTimestamp u2 t2)
  ∧ user (useOTPAuth.checkAuthState twice.1 t3) = Some (withTimestamp u2 t3)
  ∧ (∀ k, k ≠ "otpUser" → once.1 !! k = ls !! k)
  ∧ useOTPAuth.logout out.1.1 out.1.2 = out
  ∧ (∀ k, useOTPAuth.wiped k = false → k ≠ "otpUser" → out.1.1 !! k = ls !! k).
Proof.
  cbn zeta.
  split; [unfold useOTPAuth.login; cbn [fst]; by rewrite insert_insert_eq|].
  split; [done|].
  split.
  { unfold useOTPAuth.login, useOTPAuth.checkAuthState. cbn [fst].
    by rewrite lookup_insert_eq. }
  split; [intros k Hk; unfold useOTPAuth.login; cbn [fst];
          by rewrite lookup_insert_ne|].
  split.
  - pose proof (logout_lookup ls ss) as H1.
    pose proof (logout_lookup (useOTPAuth.logout ls ss).1.1
                  (useOTPAuth.logout ls ss).1.2) as H2.
    destruct (useOTPAuth.logout ls ss) as [[ls' ss'] st] eqn:E.
    cbn [fst snd] in *.
    destruct (useOTPAuth.logout ls' ss') as [[ls'' ss''] st'] eqn:E'.
    cbn [fst snd] in *.
    assert (ls'' = ls') as ->.
    { apply map_eq. intros k. rewrite H2, H1.
      destruct (useOTPAuth.wiped k); [done|]. by case_decide. }
    unfold useOTPAuth.logout in E, E'.
    injection E as _ Hss Hst. injection E' as _ Hss' Hst'.
    subst st st' ss''. f_equal. f_equal. subst ss'.
    apply map_eq. intros k.
    destruct (decide (k = "otpPhone")) as [->|Hp];
      [by rewrite !lookup_delete_eq|rewrite !(lookup_delete_ne _ "otpPhone") by done].
    destruct (decide (k = "otp")) as [->|Ho];
      [by rewrite !lookup_delete_eq|by rewrite !lookup_delete_ne].
  - intros k Hw Hk. rewrite logout_lookup, Hw. by rewrite decide_False.
Qed.

(** ** The chatroom list in state and in storage *)

Lemma list_in_sync_saveChatrooms uid dc rooms w :
  (∀ u, dc_user dc = Some u → u_id u = uid) →
  list_in_sync uid w → list_in_sync uid (Dashboard.saveChatrooms dc rooms w).
Proof.
  intros Hu Hw. unfold Dashboard.saveChatrooms, list_in_sync.
  destruct (dc_user dc) as [u|] eqn:E; [|exact Hw]. simpl.
  rewrite (Hu u eq_refl). apply lookup_insert_eq.
Qed.

Lemma list_in_sync_update uid mount f w :
  list_in_sync uid w → list_in_sync uid (ChatInterface.update mount f w).
Proof. unfold list_in_sync. by rewrite localStorage_update, dashboard_update. Qed.

Lemma list_in_sync_setSelectedChatroom uid sel w :
  list_in_sync uid w → list_in_sync uid (Dashboard.setSelectedChatroom sel w).
Proof.
  unfold list_in_sync.
  by rewrite localStorage_setSelectedChatroom, chatrooms_setSelectedChatroom.
Qed.

Lemma list_in_sync_saveMessages uid cc l w :
  (∀ u, dc_user (cc_onUpdateChatroom cc) = Some u → u_id u = uid) →
  list_in_sync uid w → list_in_sync uid (ChatInterface.saveMessages cc l w).
Proof.
  intros Hu Hw. unfold ChatInterface.saveMessages. cbn zeta.
  assert (H : list_in_sync uid
            (ChatInterface.setMessages (cc_mountId cc) (fun _ => l)
               (set_localStorage
                  (<[messages_key (c_id (cc_chatroom cc)) := JMessages l]>
                     (localStorage w)) w))).
  { unfold ChatInterface.setMessages. apply list_in_sync_update.
    unfold list_in_sync. simpl.
    rewrite lookup_insert_ne by (apply not_eq_sym, chatrooms_key_ne_messages_key).
    exact Hw. }
  destruct (last l) as [m|]; [|exact H].
  unfold Dashboard.onUpdateChatroom. by apply list_in_sync_saveChatrooms.
Qed.

Lemma list_in_sync_handle uid w e :
  event_of_user uid e → list_in_sync uid w → list_in_sync uid (handle w e).
Proof.
  intros He Hw. unfold event_of_user in He.
  destruct e as [dc now|dc rid|room| |cc now|p now]; cbn [handle].
  - unfold Dashboard.createChatroom.
    destruct (Js.truthy _), (dc_user dc) eqn:E; try done.
    apply list_in_sync_setSelectedChatroom.
    unfold Dashboard.closeCreateForm.
    pose proof (list_in_sync_saveChatrooms uid dc
                  (Dashboard.newRoom (dc_newChatroomName dc) u now :: dc_chatrooms dc)
                  w (fun u' => He dc u' eq_refl) Hw) as H.
    unfold list_in_sync in *. exact H.
  - unfold Dashboard.deleteChatroom. cbn zeta.
    set (w1 := Dashboard.saveChatrooms dc _ w).
    assert (H1 : list_in_sync uid w1)
      by (apply list_in_sync_saveChatrooms; [exact (fun u' => He dc u' eq_refl)|done]).
    set (w2 := match dc_selectedChatroom dc with Some _ => _ | None => _ end).
    assert (H2 : list_in_sync uid w2).
    { subst w2. destruct (dc_selectedChatroom dc) as [sel|]; [|done].
      case_decide; [|done]. by apply list_in_sync_setSelectedChatroom. }
    destruct (dc_user dc); [|done].
    unfold list_in_sync in *. simpl.
    rewrite lookup_delete_ne by (apply not_eq_sym, chatrooms_key_ne_messages_key).
    exact H2.
  - by apply list_in_sync_setSelectedChatroom.
  - by apply list_in_sync_setSelectedChatroom.
  - unfold ChatInterface.sendMessage.
    destruct (Js.truthy _), (cc_user cc); try done. cbn [fst].
    unfold ChatInterface.setIsTyping, ChatInterface.setInputValue.
    do 2 apply list_in_sync_update.
    apply list_in_sync_saveMessages; [exact (fun u' => He _ u' eq_refl)|done].
  - destruct p as [cc|cc file|cc nm]; cbn [ChatInterface.fire fst];
      unfold ChatInterface.setIsTyping, ChatInterface.setMessages;
      repeat apply list_in_sync_update; try done;
      (apply list_in_sync_saveMessages; [exact (fun u' => He _ u' eq_refl)|done]).
Qed.

(** X19 — the chatroom list of the state and the stored list of the
    signed-in user never part: when they agree, they agree after every
    sequence of creations, deletions, selections, messages and reply
    callbacks whose closures were made while that user was signed in,
    old closures included. *)
Theorem X19_list_in_sync (uid : string) (es : list Event) (w : World) :
  Forall (event_of_user uid) es →
  list_in_sync uid w →
  list_in_sync uid (run es w).
Proof.
  unfold run. revert w. induction es as [|e es IH]; intros w Hes Hw; [done|].
  apply Forall_cons in Hes as [He Hes]. cbn [foldl].
  apply IH; [exact Hes|]. by apply list_in_sync_handle.
Qed.

Lemma X19_list_in_sync_witness :
  Forall (event_of_user "user_1")
    [SendMessage typed_closure 3; Fire (AiReply typed_closure) 1003; LeaveChat;
     DeleteChatroom trip_dashboard "room_2"]
  ∧ list_in_sync "user_1" w_typed
  ∧ list_in_sync "user_1"
      (run [SendMessage typed_closure 3; Fire (AiReply typed_closure) 1003;
            LeaveChat; DeleteChatroom trip_dashboard "room_2"] w_typed).
Proof.
  assert (H1 : Forall (event_of_user "user_1")
                 [SendMessage typed_closure 3; Fire (AiReply typed_closure) 1003;
                  LeaveChat; DeleteChatroom trip_dashboard "room_2"]).
  { repeat constructor; intros dc u Hdc Hu; simpl in Hdc;
      try discriminate; injection Hdc as <-; injection Hu as <-; reflexivity. }
  assert (H2 : list_in_sync "user_1" w_typed) by (vm_compute; reflexivity).
  split; [exact H1|]. split; [exact H2|].
  exact (X19_list_in_sync "user_1" _ w_typed H1 H2).
Defined.

(** ** Sending an image *)

(** X20 — an image sent from the mounted chat view: [handleImageUpload]
    starts the reader; when the file is read the image message, with
    the data URL on it, is added to the stored log and to the view and
    the typing indicator is on; when the timeout runs the reply is
    added to both, so that log and view are the messages of the render
    followed by the image message and the reply, the indicator is off,
    no callback is left, and the preview of the chatroom is made from
    the reply. *)
Theorem X20_image_flow (cc : ChatClosure) (u u' : User) (c : ChatState)
    (file : File) (t1 t2 : Z) (w : World) :
  cc_user cc = Some u →
  dc_user (cc_onUpdateChatroom cc) = Some u' →
  chat w = Some c → mountId c = cc_mountId cc →
  let image := ChatInterface.imageMessage cc file t1 in
  let answer := ChatInterface.aiResponse cc t2 in
  let read := ChatInterface.fire (ReaderLoad cc file) t1 w in
  let replied := ChatInterface.fire (ImageAiReply cc (cc_messages cc ++ [image])) t2 read.1 in
  let key := messages_key (c_id (cc_chatroom cc)) in
  ChatInterface.handleImageUpload cc (Some file) = [ReaderLoad cc file]
  ∧ read.2 = [ImageAiReply cc (cc_messages cc ++ [image])]
  ∧ m_imageUrl image = Some (f_dataUrl file)
  ∧ localStorage read.1 !! key = Some (JMessages (cc_messages cc ++ [image]))
  ∧ (messages <$> chat read.1) = Some (cc_messages cc ++ [image])
  ∧ (isTyping <$> chat read.1) = Some true
  ∧ replied.2 = []
  ∧ localStorage replied.1 !! key = Some (JMessages (cc_messages cc ++ [image; answer]))
  ∧ (messages <$> chat replied.1) = Some (cc_messages cc ++ [image; answer])
  ∧ (isTyping <$> chat replied.1) = Some false
  ∧ m_isUser answer = false
  ∧ (∀ r, r ∈ chatrooms (dashboard replied.1) → c_id r = c_id (cc_chatroom cc) →
       c_lastMessage r = Some (Js.substring0 100 (m_content answer))
       ∧ c_lastMessageTime r = Some t2).
Proof.
  intros Hu Hd Hc Hm. cbn zeta.
  split; [unfold ChatInterface.handleImageUpload; by rewrite Hu|].
  cbn [ChatInterface.fire fst snd].
  split; [done|]. split; [done|].
  unfold ChatInterface.setIsTyping.
  rewrite !localStorage_update, !dashboard_update.
  split; [apply saveMessages_stores|].
  pose proof (chat_saveMessages cc
                (cc_messages cc ++ [ChatInterface.imageMessage cc file t1]) c w Hc Hm)
    as Hs1.
  set (w1 := ChatInterface.saveMessages cc
               (cc_messages cc ++ [ChatInterface.imageMessage cc file t1]) w) in *.
  assert (Hr1 : chat (ChatInterface.update (cc_mountId cc)
                        (fun c0 => {| mountId := mountId c0; ch_user := ch_user c0;
                                      messages := messages c0;
                                      inputValue := inputValue c0; isTyping := true |})
                        w1)
                = Some {| mountId := mountId c; ch_user := ch_user c;
                          messages := cc_messages cc
                                      ++ [ChatInterface.imageMessage cc file t1];
                          inputValue := inputValue c; isTyping := true |}).
  { unfold ChatInterface.update. rewrite Hs1. cbn [mountId].
    by rewrite decide_True. }
  rewrite Hr1. cbn [fmap option_fmap option_map messages isTyping].
  split; [done|]. split; [done|]. split; [done|].
  split; [rewrite <- app_assoc; apply saveMessages_stores|].
  set (w2 := ChatInterface.update _ _ w1) in *.
  pose proof (chat_saveMessages cc
                ((cc_messages cc ++ [ChatInterface.imageMessage cc file t1])
                 ++ [ChatInterface.aiResponse cc t2]) _ w2 Hr1 Hm) as Hs2.
  cbn [mountId ch_user inputValue isTyping] in Hs2.
  unfold ChatInterface.update at 1 2. rewrite Hs2. cbn [mountId].
  rewrite decide_True by exact Hm.
  cbn [fmap option_fmap option_map messages isTyping].
  split; [by rewrite <- app_assoc|]. split; [done|]. split; [done|].
  destruct (saveMessages_spec cc u'
              (cc_messages cc ++ [ChatInterface.imageMessage cc file t1])
              (ChatInterface.aiResponse cc t2) w2 Hd) as [_ Hrooms].
  cbn zeta in Hrooms. rewrite Hrooms.
  intros r [r0 [-> Hr0]]%list_elem_of_fmap. by case_decide.
Qed.

Lemma X20_image_flow_witness :
  cc_user opened_closure = Some alice_user
  ∧ dc_user (cc_onUpdateChatroom opened_closure) = Some alice_user
  ∧ (mountId <$> chat w_opened) = Some (cc_mountId opened_closure)
  ∧ localStorage
      (ChatInterface.fire
         (ImageAiReply opened_closure
            (cc_messages opened_closure
             ++ [ChatInterface.imageMessage opened_closure photo 3]))
         1503 (ChatInterface.fire (ReaderLoad opened_closure photo) 3 w_opened).1).1
      !! messages_key (c_id (cc_chatroom opened_closure))
    = Some (JMessages (cc_messages opened_closure
                       ++ [ChatInterface.imageMessage opened_closure photo 3;
                           ChatInterface.aiResponse opened_closure 1503])).
Proof.
  assert (H1 : cc_user opened_closure = Some alice_user) by reflexivity.
  assert (H2 : dc_user (cc_onUpdateChatroom opened_closure) = Some alice_user)
    by reflexivity.
  assert (H3 : chat w_opened
               = Some {| mountId := 0; ch_user := Some alice_user; messages := [];
                         inputValue := ""; isTyping := false |})
    by (vm_compute; reflexivity).
  split; [exact H1|]. split; [exact H2|]. split; [by rewrite H3|].
  exact (proj1 (proj2 (proj2 (proj2 (proj2 (proj2 (proj2 (proj2
    (X20_image_flow opened_closure alice_user alice_user _ photo 3 1503 w_opened
       H1 H2 H3 eq_refl))))))))).
Defined.

(** ** Going back to the phone step *)

(** X21 — [goBack] returns to the phone step with the phone and the
    country that were entered, an empty code input and no error, and
    stops the countdown: no later second of the timer changes the
    state.  It does not withdraw what is under way: the stored
    challenge stays, and a verification timeout that was pending when
    the button was pressed, with the stored code, still ends at
    [verified] and creates the user. *)
Theorem X21_goBack (f : Form) (vc : OTPAuth.VerifyClosure) (now : Z) (n : nat) :
  f_session f !! "otp" = Some (OTPAuth.v_otp vc) →
  let back := form_handle f BackClick in
  let late := form_handle back (VerifyTimeout vc now) in
  step (f_state back) = phone_step
  ∧ phone (f_state back) = phone (f_state f)
  ∧ countryCode (f_state back) = countryCode (f_state f)
  ∧ otp (f_state back) = "" ∧ error (f_state back) = None
  ∧ OTPAuth.elapse n (f_state back) = f_state back
  ∧ f_session back = f_session f
  ∧ f_local back = f_local f
  ∧ step (f_state late) = verified_step
  ∧ f_local late !! "otpUser"
    = Some (JIdentity {| i_id := "user_" +:+ Js.toString now;
                         i_phone := OTPAuth.v_phone vc;
                         i_countryCode := OTPAuth.v_countryCode vc |})
  ∧ f_session late !! "otp" = None.
Proof.
  intros Hss. cbn zeta. destruct f as [st ss ls]. simpl in Hss.
  cbn [form_handle f_state f_session f_local].
  do 5 (split; [done|]).
  split.
  { induction n as [|n IH]; [done|].
    cbn [OTPAuth.elapse]. unfold OTPAuth.interval at 1.
    by rewrite decide_False by (simpl; lia). }
  split; [done|]. split; [done|].
  unfold OTPAuth.verifyOTP_timeout. cbn zeta. rewrite Hss.
  rewrite decide_True by done. cbn [f_state f_session f_local step].
  split; [done|]. split; [apply lookup_insert_eq|].
  rewrite lookup_delete_ne by done. apply lookup_delete_eq.
Qed.

Lemma X21_goBack_witness :
  f_session (mkForm (at_otp "123456") challenge ∅) !! "otp" = Some "123456"
  ∧ step (f_state (form_handle
                     (form_handle (mkForm (at_otp "123456") challenge ∅) BackClick)
                     (VerifyTimeout (OTPAuth.mkVerifyClosure "123456" "5551234" "+1") 7)))
    = verified_step.
Proof.
  assert (H : f_session (mkForm (at_otp "123456") challenge ∅) !! "otp"
              = Some "123456") by (vm_compute; reflexivity).
  split; [exact H|].
  exact (proj1 (proj2 (proj2 (proj2 (proj2 (proj2 (proj2 (proj2 (proj2
    (X21_goBack (mkForm (at_otp "123456") challenge ∅)
       (OTPAuth.mkVerifyClosure "123456" "5551234" "+1") 7 0 H)))))))))).
Defined.

(** ** The generated number *)

(** X22 — the generated number grows with the value of the random
    source: for [0 <= r <= r'] the number for [r] is at most the number
    for [r']; it is 100000 for [r = 0] and 999999 for the largest
    double below 1, so both ends of the range are reached. *)
Theorem X22_generated_number_monotone (r r' : Q) :
  (0 <= r)%Q → (r <= r')%Q →
  (OTPAuth.generatedNumber r ≤ OTPAuth.generatedNumber r')%Z
  ∧ OTPAuth.generatedNumber 0 = 100000%Z
  ∧ Js.is_double (1 - Js.pow2 (-53))
  ∧ OTPAuth.generatedNumber (1 - Js.pow2 (-53)) = 999999%Z.
Proof.
  intros H0 Hr.
  split; [|split; [by vm_compute|split; by vm_compute]].
  unfold OTPAuth.generatedNumber, Js.add, Js.mul.
  assert (Hlo : (0 <= Js.round_double (r * 900000))%Q).
  { change 0%Q with (Js.round_double 0) at 1. apply round_double_mono; lra. }
  assert (Hm : (Js.round_double (r * 900000) <= Js.round_double (r' * 900000))%Q).
  { apply round_double_mono; [lra|]. apply Qmult_le_compat_r; [done|lra]. }
  apply Qfloor_resp_le, round_double_mono; lra.
Qed.

Lemma X22_generated_number_monotone_witness :
  (0 <= 1 # 4)%Q ∧ (1 # 4 <= 1 # 2)%Q
  ∧ (OTPAuth.generatedNumber (1 # 4) ≤ OTPAuth.generatedNumber (1 # 2))%Z.
Proof.
  assert (H0 : (0 <= 1 # 4)%Q) by (vm_compute; discriminate).
  assert (H1 : (1 # 4 <= 1 # 2)%Q) by (vm_compute; discriminate).
  split; [exact H0|]. split; [exact H1|].
  exact (proj1 (X22_generated_number_monotone (1 # 4) (1 # 2) H0 H1)).
Defined.
